(** * Blood-donor registration server (script.js): shallow embedding

    The server wires three HTTP routes to SQL statements over one SQLite
    store.  This development embeds

    - the three regular expressions of the registration handler
      ([emailRegex], [phoneRegex] and the NID pattern) over a small regular
      expression engine,
    - the tables [donors], [admins] and [blood_inventory] with the
      constraints of their DDL,
    - the start-up [db.serialize] block, [GET /api/donors] and
      [POST /api/donors] as state-passing functions,

    and proves the properties of the registration and listing flow. *)

From Stdlib Require Import List NArith ZArith Bool String Ascii Lia.
From Stdlib Require Import Permutation Sorted.
Import ListNotations.

Set Implicit Arguments.

(* ================================================================== *)
(** * JavaScript strings *)
(* ================================================================== *)

(** A JavaScript string is a sequence of UTF-16 code units; the regular
    expressions of the handler carry no [u] flag, so they read the string
    one code unit at a time. *)
Definition code_unit := N.
Definition jsstr := list code_unit.

(** ASCII literals of the source, as code units. *)
Fixpoint str (s : string) : jsstr :=
  match s with
  | EmptyString => []
  | String a t => N_of_ascii a :: str t
  end.

(** [===] on strings, and the [=] of SQLite on [TEXT] under the default
    [BINARY] collation. *)
Fixpoint jsstr_eqb (a b : jsstr) : bool :=
  match a, b with
  | [], [] => true
  | x :: a', y :: b' => N.eqb x y && jsstr_eqb a' b'
  | _, _ => false
  end.

(** Character classes of ECMAScript regular expressions. *)
Module CharClass.
Local Open Scope N_scope.

Definition in_range (lo hi c : code_unit) : bool :=
  (N.leb lo c && N.leb c hi)%bool.

(** [\d] is [0-9]. *)
Definition digit (c : code_unit) : bool := in_range 48 57 c.

(** [[3-9]]. *)
Definition digit_3_9 (c : code_unit) : bool := in_range 51 57 c.

(** [\s]: the WhiteSpace and LineTerminator code points:
    TAB, LF, VT, FF, CR, SP, NBSP, U+1680, U+2000..U+200A, U+2028,
    U+2029, U+202F, U+205F, U+3000 and U+FEFF. *)
Definition space (c : code_unit) : bool :=
  (in_range 9 13 c || N.eqb c 32 || N.eqb c 160 || N.eqb c 5760
   || in_range 8192 8202 c || N.eqb c 8232 || N.eqb c 8233
   || N.eqb c 8239 || N.eqb c 8287 || N.eqb c 12288
   || N.eqb c 65279)%bool.

Definition exactly (k : code_unit) (c : code_unit) : bool := N.eqb c k.

Definition AT : code_unit := 64.    (* @ *)
Definition DOT : code_unit := 46.   (* . *)
Definition PLUS : code_unit := 43.  (* + *)
Definition D0 : code_unit := 48.    (* 0 *)
Definition D1 : code_unit := 49.    (* 1 *)
Definition D8 : code_unit := 56.    (* 8 *)

(** [[^\s@]]. *)
Definition not_space_at (c : code_unit) : bool :=
  negb (space c || N.eqb c AT).

End CharClass.

(* ================================================================== *)
(** * Strings through the SQLite binding *)
(* ================================================================== *)

(** node-sqlite3 binds a JavaScript string as UTF-8 text and reads a
    [TEXT] column back from UTF-8.  The conversion keeps every code unit,
    a surrogate pair included, except an unpaired surrogate, which is
    written as U+FFFD.  [bound_text s] is the string a column holds, as
    JavaScript reads it, after [s] was bound to it. *)
Module Binding.
Local Open Scope N_scope.

Definition high_surrogate (c : code_unit) : bool :=
  CharClass.in_range 55296 56319 c.      (* U+D800..U+DBFF *)

Definition low_surrogate (c : code_unit) : bool :=
  CharClass.in_range 56320 57343 c.      (* U+DC00..U+DFFF *)

Definition surrogate (c : code_unit) : bool :=
  (high_surrogate c || low_surrogate c)%bool.

Definition REPLACEMENT : code_unit := 65533.   (* U+FFFD *)

Fixpoint bound_text (s : jsstr) : jsstr :=
  match s with
  | [] => []
  | c :: t =>
      if high_surrogate c then
        match t with
        | d :: t' =>
            if low_surrogate d then c :: d :: bound_text t'
            else REPLACEMENT :: bound_text t
        | [] => [REPLACEMENT]
        end
      else if low_surrogate c then REPLACEMENT :: bound_text t
      else c :: bound_text t
  end.

End Binding.

(* ================================================================== *)
(** * Regular expressions *)
(* ================================================================== *)

(** The three patterns of the handler are anchored at both ends ([^...$],
    no [m] flag) and use only character classes, concatenation and the
    quantifiers [?], [+] and [{n}]: no captures are read, and there are no
    look-arounds or back-references.  For such a pattern
    [RegExp.prototype.test] answers whether the whole string belongs to the
    pattern's language, which the derivative matcher [test] decides. *)
Module Regex.

Inductive re : Type :=
| Void : re
| Eps : re
| Cls : (code_unit -> bool) -> re
| Cat : re -> re -> re
| Alt : re -> re -> re
| Star : re -> re.

(** [r?], [r+] and [r{n}]. *)
Definition Opt (r : re) : re := Alt r Eps.
Definition Plus (r : re) : re := Cat r (Star r).
Fixpoint Rep (n : nat) (r : re) : re :=
  match n with
  | O => Eps
  | S k => Cat r (Rep k r)
  end.
Definition Chr (k : code_unit) : re := Cls (CharClass.exactly k).

Fixpoint nullable (r : re) : bool :=
  match r with
  | Void => false
  | Eps => true
  | Cls _ => false
  | Cat a b => nullable a && nullable b
  | Alt a b => nullable a || nullable b
  | Star _ => true
  end.

Fixpoint deriv (c : code_unit) (r : re) : re :=
  match r with
  | Void => Void
  | Eps => Void
  | Cls p => if p c then Eps else Void
  | Cat a b =>
      if nullable a then Alt (Cat (deriv c a) b) (deriv c b)
      else Cat (deriv c a) b
  | Alt a b => Alt (deriv c a) (deriv c b)
  | Star a => Cat (deriv c a) (Star a)
  end.

(** [/^r$/.test(s)]. *)
Fixpoint test (r : re) (s : jsstr) : bool :=
  match s with
  | [] => nullable r
  | c :: t => test (deriv c r) t
  end.

(** The language of a pattern. *)
Inductive matches : re -> jsstr -> Prop :=
| m_eps : matches Eps []
| m_cls : forall (p : code_unit -> bool) c, p c = true -> matches (Cls p) [c]
| m_cat : forall a b s t,
    matches a s -> matches b t -> matches (Cat a b) (s ++ t)
| m_alt_l : forall a b s, matches a s -> matches (Alt a b) s
| m_alt_r : forall a b s, matches b s -> matches (Alt a b) s
| m_star_nil : forall a, matches (Star a) []
| m_star_app : forall a s t,
    matches a s -> matches (Star a) t -> matches (Star a) (s ++ t).

Create HintDb regex.
#[export] Hint Constructors matches : regex.

End Regex.

(* ================================================================== *)
(** * The patterns of the registration handler *)
(* ================================================================== *)

Module Patterns.
Import Regex CharClass.

(** [const emailRegex = /^[^\s@]+@[^\s@]+\.[^\s@]+$/] *)
Definition emailRegex : re :=
  Cat (Plus (Cls not_space_at))
 (Cat (Chr AT)
 (Cat (Plus (Cls not_space_at))
 (Cat (Chr DOT)
      (Plus (Cls not_space_at))))).

(** [const phoneRegex = /^\+?880?\s?1[3-9]\d{8}$/] *)
Definition phoneRegex : re :=
  Cat (Opt (Chr PLUS))
 (Cat (Chr D8)
 (Cat (Chr D8)
 (Cat (Opt (Chr D0))
 (Cat (Opt (Cls space))
 (Cat (Chr D1)
 (Cat (Cls digit_3_9)
      (Rep 8 (Cls digit)))))))).

(** [/^\d{17}$/] *)
Definition nidRegex : re := Rep 17 (Cls digit).

(** [phone.replace(/\s/g, '')] *)
Definition strip_spaces (s : jsstr) : jsstr :=
  filter (fun c => negb (space c)) s.

End Patterns.

(* ================================================================== *)
(** * The store *)
(* ================================================================== *)

(** [CURRENT_TIMESTAMP] has a resolution of one second; a timestamp is the
    number of seconds it denotes.  The text form ['YYYY-MM-DD HH:MM:SS']
    that SQLite stores compares in the same order. *)
Definition timestamp := Z.

(** A bound parameter or a nullable [TEXT] column: [None] is SQL [NULL]
    (node-sqlite3 leaves an [undefined] parameter unbound, which SQLite
    reads as [NULL]). *)
Definition sqltext := option jsstr.

(** Rows of [donors].  Columns declared [NOT NULL] hold a string; [id],
    [registrationDate] and [status] are never supplied by the [INSERT] of
    the handler and take their defaults. *)
Module Donor.
Record row := {
  id : Z;
  firstName : jsstr;
  lastName : jsstr;
  email : jsstr;
  phone : jsstr;
  dob : jsstr;
  bloodType : jsstr;
  gender : jsstr;
  address : jsstr;
  city : jsstr;
  zipCode : jsstr;
  nidNumber : sqltext;
  nidVerified : Z;
  nidData : sqltext;
  registrationDate : timestamp;
  status : jsstr;
  registeredBy : jsstr
}.
End Donor.

Module Admin.
Record row := {
  username : jsstr;
  password : jsstr;
  email : jsstr;
  name : sqltext;
  role : jsstr;
  created_at : timestamp
}.
End Admin.

Module Inventory.
Record row := {
  bloodType : jsstr;
  units : Z;
  lastUpdated : timestamp
}.
End Inventory.

(** The option monad of a statement that a constraint can abort. *)
Notation "x <- c ;; k" :=
  (match c with Some x => k | None => None end)
  (at level 61, c at next level, right associativity).

Module Store.
Import Binding.

(** The three tables the code reads or writes, and the [sqlite_sequence]
    entry of [donors] (the [AUTOINCREMENT] high-water mark).  The [id]
    columns of [admins] and [blood_inventory] are never read and are left
    out; [blood_requests] and [nid_verification_logs] are only created. *)
Record db := {
  donors : list Donor.row;
  donors_seq : Z;
  admins : list Admin.row;
  blood_inventory : list Inventory.row
}.

(** The store after the five [CREATE TABLE IF NOT EXISTS] on a new file.
    On an existing store those statements change nothing. *)
Definition empty_db : db :=
  {| donors := []; donors_seq := 0; admins := []; blood_inventory := [] |}.

(** The fourteen bound parameters of the donor [INSERT]. *)
Record donor_params := {
  p_firstName : sqltext;
  p_lastName : sqltext;
  p_email : sqltext;
  p_phone : sqltext;
  p_dob : sqltext;
  p_bloodType : sqltext;
  p_gender : sqltext;
  p_address : sqltext;
  p_city : sqltext;
  p_zipCode : sqltext;
  p_nidNumber : sqltext;
  p_nidVerified : Z;
  p_nidData : sqltext;
  p_registeredBy : jsstr
}.

Definition max_id (l : list Donor.row) : Z :=
  fold_right (fun r m => Z.max (Donor.id r) m) 0%Z l.

(** The rowid an [AUTOINCREMENT] insert takes: one more than the largest
    rowid the table ever held.  SQLite's rowids are 64-bit; the table
    running out of them is one of the faults of [insert_donor]. *)
Definition next_id (s : db) : Z :=
  (Z.max (donors_seq s) (max_id (donors s)) + 1)%Z.

(** [INSERT INTO donors (firstName, ..., registeredBy) VALUES (?, ..., ?)].
    [None] is the statement's error: a fault of the store (an I/O error,
    or [SQLITE_FULL] when the rowids are used up), or a [NULL] bound to one
    of the ten [NOT NULL] columns.  Each string goes through the binding.
    On success the new store and [this.lastID]; rowids are not bounded
    here, and [this.lastID], a double, is the rowid itself as long as that
    is below 2^53. *)
Definition insert_donor (now : timestamp) (fault : bool)
    (ps : donor_params) (s : db) : option (db * Z) :=
  if fault then None else
  fn <- p_firstName ps ;;
  ln <- p_lastName ps ;;
  em <- p_email ps ;;
  ph <- p_phone ps ;;
  bd <- p_dob ps ;;
  bt <- p_bloodType ps ;;
  ge <- p_gender ps ;;
  ad <- p_address ps ;;
  ci <- p_city ps ;;
  zc <- p_zipCode ps ;;
  let i := next_id s in
  let r := {| Donor.id := i;
              Donor.firstName := bound_text fn;
              Donor.lastName := bound_text ln;
              Donor.email := bound_text em;
              Donor.phone := bound_text ph;
              Donor.dob := bound_text bd;
              Donor.bloodType := bound_text bt;
              Donor.gender := bound_text ge;
              Donor.address := bound_text ad;
              Donor.city := bound_text ci;
              Donor.zipCode := bound_text zc;
              Donor.nidNumber := option_map bound_text (p_nidNumber ps);
              Donor.nidVerified := p_nidVerified ps;
              Donor.nidData := option_map bound_text (p_nidData ps);
              Donor.registrationDate := now;
              Donor.status := str "Active";
              Donor.registeredBy := bound_text (p_registeredBy ps) |} in
  Some ({| donors := donors s ++ [r]; donors_seq := i;
           admins := admins s; blood_inventory := blood_inventory s |}, i).

(** One row of
    [UPDATE blood_inventory SET units = units + 1,
       lastUpdated = CURRENT_TIMESTAMP WHERE bloodType = ?]. *)
Definition bump (now : timestamp) (t : jsstr) (r : Inventory.row)
  : Inventory.row :=
  if jsstr_eqb (Inventory.bloodType r) t
  then {| Inventory.bloodType := Inventory.bloodType r;
          Inventory.units := (Inventory.units r + 1)%Z;
          Inventory.lastUpdated := now |}
  else r.

(** The [UPDATE] with [t] bound to its parameter; a faulted statement
    changes nothing. *)
Definition update_inventory (now : timestamp) (fault : bool) (t : jsstr)
    (s : db) : option db :=
  if fault then None else
  Some {| donors := donors s; donors_seq := donors_seq s;
          admins := admins s;
          blood_inventory :=
            map (bump now (bound_text t)) (blood_inventory s) |}.

(** [SELECT * FROM admins WHERE username = ?] read with [db.get]:
    the first row, if any.  The start-up statements bind literals of the
    source only, which the binding leaves as they are. *)
Definition select_admin (u : jsstr) (s : db) : option Admin.row :=
  find (fun a => jsstr_eqb (Admin.username a) u) (admins s).

(** [INSERT INTO admins (username, password, email, name) VALUES (?,?,?,?)];
    [username] is [UNIQUE]. *)
Definition insert_admin (now : timestamp) (u pw em : jsstr) (nm : sqltext)
    (s : db) : option db :=
  if existsb (fun a => jsstr_eqb (Admin.username a) u) (admins s)
  then None
  else Some {| donors := donors s; donors_seq := donors_seq s;
               admins := admins s ++
                 [{| Admin.username := u; Admin.password := pw;
                     Admin.email := em; Admin.name := nm;
                     Admin.role := str "admin";
                     Admin.created_at := now |}];
               blood_inventory := blood_inventory s |}.

(** [INSERT OR IGNORE INTO blood_inventory (bloodType, units) VALUES (?, 0)];
    [bloodType] is [UNIQUE], and a conflicting row is skipped. *)
Definition insert_or_ignore_inventory (now : timestamp) (s : db) (t : jsstr)
  : db :=
  if existsb (fun r => jsstr_eqb (Inventory.bloodType r) t)
       (blood_inventory s)
  then s
  else {| donors := donors s; donors_seq := donors_seq s;
          admins := admins s;
          blood_inventory := blood_inventory s ++
            [{| Inventory.bloodType := t; Inventory.units := 0%Z;
                Inventory.lastUpdated := now |}] |}.

(** [ORDER BY registrationDate DESC]: SQL fixes the order of rows with
    different keys only; this sorter keeps rows with equal keys in table
    order. *)
Fixpoint insert_desc (d : Donor.row) (l : list Donor.row) : list Donor.row :=
  match l with
  | [] => [d]
  | x :: t =>
      if (Donor.registrationDate x <=? Donor.registrationDate d)%Z
      then d :: l
      else x :: insert_desc d t
  end.

Definition order_by_registrationDate_desc (l : list Donor.row)
  : list Donor.row :=
  fold_right insert_desc [] l.

(** [SELECT * FROM donors ORDER BY registrationDate DESC] read with
    [db.all]; [None] is a read error. *)
Definition select_donors (fault : bool) (s : db) : option (list Donor.row) :=
  if fault then None else Some (order_by_registrationDate_desc (donors s)).

End Store.

(* ================================================================== *)
(** * Start-up *)
(* ================================================================== *)

Module Startup.
Import Store.

(** [const defaultAdmin = { username: 'admin', password: 'admin123',
     email: 'admin@roktokona.org', name: ... }]; the name is a Bengali
    literal, given by its code units. *)
Record admin_seed := {
  username : jsstr;
  password : jsstr;
  email : jsstr;
  name : jsstr
}.

Definition defaultAdmin : admin_seed :=
  {| username := str "admin";
     password := str "admin123";
     email := str "admin@roktokona.org";
     name := [2488; 2495; 2488; 2509; 2463; 2503; 2478; 32; 2437; 2509;
              2479; 2494; 2465; 2478; 2495; 2472]%N |}.

(** [const bloodTypes = ['O+', 'O-', 'A+', 'A-', 'B+', 'B-', 'AB+', 'AB-']] *)
Definition bloodTypes : list jsstr :=
  map str ["O+"; "O-"; "A+"; "A-"; "B+"; "B-"; "AB+"; "AB-"]%string.

(** The row the admin [INSERT] writes when it runs at time [now]. *)
Definition admin_row (now : timestamp) : Admin.row :=
  {| Admin.username := username defaultAdmin;
     Admin.password := password defaultAdmin;
     Admin.email := email defaultAdmin;
     Admin.name := Some (name defaultAdmin);
     Admin.role := str "admin";
     Admin.created_at := now |}.

(** The seeding part of the [db.serialize] block.  [db.get] is queued
    first, then the eight [INSERT OR IGNORE]; the admin [INSERT] is issued
    from the callback of [db.get], so it runs after them, and only when
    [db.get] found no row.  Its error, if any, is not read.  The statements
    of one run are taken to read the same clock second [now]. *)
Definition startup (now : timestamp) (s : db) : db :=
  let row := select_admin (username defaultAdmin) s in
  let s1 := fold_left (insert_or_ignore_inventory now) bloodTypes s in
  match row with
  | Some _ => s1
  | None =>
      match insert_admin now (username defaultAdmin) (password defaultAdmin)
              (email defaultAdmin) (Some (name defaultAdmin)) s1 with
      | Some s2 => s2
      | None => s1
      end
  end.

End Startup.

(* ================================================================== *)
(** * HTTP handlers *)
(* ================================================================== *)

(** [req.body] of [POST /api/donors], destructured.  A field is absent
    ([undefined], here [None]) or a JSON string.  A JSON body can also
    carry numbers, booleans, [null], arrays and objects in these fields;
    such payloads are not modelled, and every statement below about a
    payload, or about the stores registrations lead to, is about payloads
    whose fields are absent or strings. *)
Module Req.
Record payload := {
  firstName : option jsstr;
  lastName : option jsstr;
  email : option jsstr;
  phone : option jsstr;
  dob : option jsstr;
  bloodType : option jsstr;
  gender : option jsstr;
  address : option jsstr;
  city : option jsstr;
  zipCode : option jsstr;
  nidNumber : option jsstr;
  registeredBy : option jsstr
}.
End Req.

(** The fixed message literals of the responses (Bengali in the source). *)
Inductive message : Type :=
| MsgRequired      (* 'দয়া করে সকল আবশ্যক তথ্য প্রদান করুন' *)
| MsgEmail         (* 'সঠিক ইমেইল ঠিকানা দিন' *)
| MsgPhone         (* 'সঠিক মোবাইল নম্বর দিন (বাংলাদেশি ফরম্যাট)' *)
| MsgNid           (* 'সঠিক ১৭ ডিজিটের NID নম্বর দিন' *)
| MsgStoreError    (* 'নিবন্ধন প্রক্রিয়ায় সমস্যা হয়েছে' *)
| MsgRegistered    (* 'রক্তদাতা সফলভাবে নিবন্ধিত হয়েছে' *)
| MsgLoadError.    (* 'ডেটা লোড করতে সমস্যা হয়েছে' *)

(** [nidStatus]: ['পেন্ডিং'] (pending) or ['নেই'] (none). *)
Inductive nid_status : Type := NidPending | NidNone.

Module Handlers.
Import Regex Patterns Store.

(** JavaScript truthiness of a field: neither [undefined] nor [''] . *)
Definition truthy (v : option jsstr) : bool :=
  match v with
  | Some (_ :: _) => true
  | _ => false
  end.

(** [ToString] of the argument of [RegExp.prototype.test]. *)
Definition ToString (v : option jsstr) : jsstr :=
  match v with
  | Some s => s
  | None => str "undefined"
  end.

(** Response bodies of [POST /api/donors]. *)
Inductive body : Type :=
| Failure (m : message)
    (* { success: false, message } *)
| Registered (m : message) (donorId : Z) (nidStatus : nid_status).
    (* { success: true, message, donorId, nidStatus } *)

(** What the handler does with the request: a JSON response with its
    status, or an uncaught [TypeError] ([phone.replace] on [undefined]). *)
Inductive reply : Type :=
| Json (status : nat) (b : body)
| TypeError.

(** What the handler cannot choose: the clock second at which each of its
    two statements runs, and whether the store fails on it. *)
Record env := {
  t_insert : timestamp;
  insert_fault : bool;
  t_update : timestamp;
  update_fault : bool
}.

(** [const params = [firstName, ..., nidNumber, nidVerified, nidData,
     registeredBy || 'user']], with
    [const nidVerified = nidNumber ? 0 : 0] and [const nidData = null]. *)
Definition donor_params_of (p : Req.payload) : donor_params :=
  let nidVerified := if truthy (Req.nidNumber p) then 0%Z else 0%Z in
  let nidData : sqltext := None in
  {| p_firstName := Req.firstName p;
     p_lastName := Req.lastName p;
     p_email := Req.email p;
     p_phone := Req.phone p;
     p_dob := Req.dob p;
     p_bloodType := Req.bloodType p;
     p_gender := Req.gender p;
     p_address := Req.address p;
     p_city := Req.city p;
     p_zipCode := Req.zipCode p;
     p_nidNumber := Req.nidNumber p;
     p_nidVerified := nidVerified;
     p_nidData := nidData;
     p_registeredBy :=
       if truthy (Req.registeredBy p) then ToString (Req.registeredBy p)
       else str "user" |}.

(** The required-field guard:
    [!firstName || !lastName || !email || !phone || !bloodType || !gender
     || !city]. *)
Definition missing_required (p : Req.payload) : bool :=
  negb (truthy (Req.firstName p)) || negb (truthy (Req.lastName p))
  || negb (truthy (Req.email p)) || negb (truthy (Req.phone p))
  || negb (truthy (Req.bloodType p)) || negb (truthy (Req.gender p))
  || negb (truthy (Req.city p)).

(** [emailRegex.test(email)] *)
Definition email_ok (p : Req.payload) : bool :=
  test emailRegex (ToString (Req.email p)).

(** [phoneRegex.test(phone.replace(/\s/g, ''))] for a string [phone]. *)
Definition phone_ok (ph : jsstr) : bool :=
  test phoneRegex (strip_spaces ph).

(** [nidNumber && !/^\d{17}$/.test(nidNumber)] *)
Definition nid_bad (p : Req.payload) : bool :=
  truthy (Req.nidNumber p) && negb (test nidRegex (ToString (Req.nidNumber p))).

(** The part of the handler after the four validation guards: the donor
    [INSERT], and in its callback the inventory [UPDATE] and the response. *)
Definition persist (e : env) (p : Req.payload) (s : db) : reply * db :=
  match insert_donor (t_insert e) (insert_fault e) (donor_params_of p) s with
  | None => (Json 500 (Failure MsgStoreError), s)
  | Some (s1, lastID) =>
      let s2 :=
        match update_inventory (t_update e) (update_fault e)
                (ToString (Req.bloodType p)) s1 with
        | Some s' => s'
        | None => s1       (* the error is logged and dropped *)
        end in
      (Json 200 (Registered MsgRegistered lastID
                   (if truthy (Req.nidNumber p) then NidPending else NidNone)),
       s2)
  end.

(** [app.post('/api/donors', ...)] *)
Definition post_donors (e : env) (p : Req.payload) (s : db) : reply * db :=
  if missing_required p then (Json 400 (Failure MsgRequired), s)
  else if negb (email_ok p) then (Json 400 (Failure MsgEmail), s)
  else
    match Req.phone p with
    | None => (TypeError, s)
    | Some ph =>
        if negb (phone_ok ph) then (Json 400 (Failure MsgPhone), s)
        else if nid_bad p then (Json 400 (Failure MsgNid), s)
        else persist e p s
    end.

(** The four guards alone: the message of the first one that rejects. *)
Definition validate (p : Req.payload) : option message :=
  if missing_required p then Some MsgRequired
  else if negb (email_ok p) then Some MsgEmail
  else if negb (phone_ok (ToString (Req.phone p))) then Some MsgPhone
  else if nid_bad p then Some MsgNid
  else None.

Section Listing.

(** The runtime's [JSON.parse] ([None]: it throws a [SyntaxError]) and
    [new Date(t).toLocaleDateString('bn-BD')]. *)
Variable json : Type.
Variable JSON_parse : jsstr -> option json.
Variable toLocaleDateString : timestamp -> jsstr.

(** [{ ...donor, nidData: ..., registrationDate: ... }]: the row with two
    of its properties replaced. *)
Record donor_view := {
  spread : Donor.row;
  nidData : option json;
  registrationDate : jsstr
}.

(** [donor.nidData ? JSON.parse(donor.nidData) : null] and the date. *)
Definition view (d : Donor.row) : option donor_view :=
  match Donor.nidData d with
  | Some (c :: t) =>
      j <- JSON_parse (c :: t) ;;
      Some {| spread := d; nidData := Some j;
              registrationDate :=
                toLocaleDateString (Donor.registrationDate d) |}
  | _ =>
      Some {| spread := d; nidData := None;
              registrationDate :=
                toLocaleDateString (Donor.registrationDate d) |}
  end.

(** The stored payload of [d] is one [JSON.parse] reads. *)
Definition readable (d : Donor.row) : Prop :=
  match Donor.nidData d with
  | Some (c :: t) => JSON_parse (c :: t) <> None
  | _ => True
  end.

(** [rows.map(...)]; the first throwing element aborts the map. *)
Fixpoint map_view (rows : list Donor.row) : option (list donor_view) :=
  match rows with
  | [] => Some []
  | d :: t =>
      v <- view d ;;
      vs <- map_view t ;;
      Some (v :: vs)
  end.

Inductive listing : Type :=
| ListFailure (status : nat) (m : message)
    (* { success: false, message } *)
| ListJson (status : nat) (donors : list donor_view) (count : nat)
    (* { success: true, donors, count } *)
| SyntaxError.

(** [app.get('/api/donors', ...)]; the store is only read. *)
Definition get_donors (fault : bool) (s : db) : listing :=
  match select_donors fault s with
  | None => ListFailure 500 MsgLoadError
  | Some rows =>
      match map_view rows with
      | Some donors => ListJson 200 donors (List.length donors)
      | None => SyntaxError
      end
  end.

End Listing.

End Handlers.

(* ================================================================== *)
(** * Runs of the server *)
(* ================================================================== *)

Module Server.
Import Store Handlers.

(** What changes or reads the store: a process start, a listing, a
    registration. *)
Inductive event : Type :=
| EvStartup (now : timestamp)
| EvList (fault : bool)
| EvRegister (e : env) (p : Req.payload).

Definition step (ev : event) (s : db) : db :=
  match ev with
  | EvStartup now => Startup.startup now s
  | EvList _ => s
  | EvRegister e p => snd (post_donors e p s)
  end.

(** The stores a new database file can come to hold. *)
Inductive reachable : db -> Prop :=
| reach_new : reachable empty_db
| reach_step : forall ev s, reachable s -> reachable (step ev s).

(** No start-up has seeded the store yet. *)
Definition unseeded (s : db) : Prop :=
  admins s = [] /\ blood_inventory s = [].

(** Exactly one admin row, the default one, and exactly one inventory row
    per canonical blood type, in the order of [bloodTypes]. *)
Definition seeded (s : db) : Prop :=
  (exists t, admins s = [Startup.admin_row t])
  /\ map Inventory.bloodType (blood_inventory s) = Startup.bloodTypes.

End Server.

(* ================================================================== *)
(** * Shapes of accepted strings *)
(* ================================================================== *)

(** The sets of strings the properties below speak of, stated without
    reference to the patterns. *)
Module Shapes.
Import CharClass.

Definition all (p : code_unit -> bool) (s : jsstr) : Prop :=
  Forall (fun c => p c = true) s.

(** [n] decimal digits. *)
Definition digits (n : nat) (s : jsstr) : Prop :=
  List.length s = n /\ all digit s.

(** A part of an address: a non-empty run of code units that are neither
    whitespace nor [@]. *)
Definition email_part (s : jsstr) : Prop :=
  s <> [] /\ all not_space_at s.

(** [local@domain.tld] *)
Definition email_shape (e : jsstr) : Prop :=
  exists l d t,
    e = l ++ AT :: d ++ DOT :: t
    /\ email_part l /\ email_part d /\ email_part t.

(** [+880], then [1], a digit 3 to 9 and eight more digits. *)
Definition plus880_shape (s : jsstr) : Prop :=
  exists a ds,
    s = str "+8801" ++ a :: ds /\ digit_3_9 a = true /\ digits 8 ds.

(** An optional [+], [88], an optional [0], then [1], a digit 3 to 9 and
    eight more digits. *)
Definition phone_shape (s : jsstr) : Prop :=
  exists pl z a ds,
    s = pl ++ str "88" ++ z ++ D1 :: a :: ds
    /\ (pl = [] \/ pl = [PLUS]) /\ (z = [] \/ z = [D0])
    /\ digit_3_9 a = true /\ digits 8 ds.

(** The payload with another blood type. *)
Definition with_bloodType (bt : jsstr) (p : Req.payload) : Req.payload :=
  {| Req.firstName := Req.firstName p;
     Req.lastName := Req.lastName p;
     Req.email := Req.email p;
     Req.phone := Req.phone p;
     Req.dob := Req.dob p;
     Req.bloodType := Some bt;
     Req.gender := Req.gender p;
     Req.address := Req.address p;
     Req.city := Req.city p;
     Req.zipCode := Req.zipCode p;
     Req.nidNumber := Req.nidNumber p;
     Req.registeredBy := Req.registeredBy p |}.

(** A donor row as every registration writes it: not verified, no
    verification payload. *)
Definition unverified (d : Donor.row) : Prop :=
  Donor.nidVerified d = 0%Z /\ Donor.nidData d = None.

(** Newest registration first. *)
Definition newest_first (rows : list Donor.row) : Prop :=
  StronglySorted
    (fun a b => (Donor.registrationDate b <= Donor.registrationDate a)%Z)
    rows.

(** What the inventory [UPDATE] of a registration of type [t] at time
    [now] makes of a row. *)
Definition bumped (now : timestamp) (t : jsstr) (r r' : Inventory.row)
  : Prop :=
  Inventory.bloodType r' = Inventory.bloodType r
  /\ (Inventory.bloodType r = t ->
      Inventory.units r' = (Inventory.units r + 1)%Z
      /\ Inventory.lastUpdated r' = now)
  /\ (Inventory.bloodType r <> t -> r' = r).

(** A required field that is missing or the empty string. *)
Definition absent_or_empty (v : option jsstr) : Prop :=
  v = None \/ v = Some [].

End Shapes.

(* ================================================================== *)
(** * Sample requests *)
(* ================================================================== *)

Module Samples.
Import Handlers.

(** A complete registration; the four arguments are the fields the
    examples vary. *)
Definition registration (em ph bt nid : option jsstr) : Req.payload :=
  {| Req.firstName := Some (str "Karim");
     Req.lastName := Some (str "Uddin");
     Req.email := em;
     Req.phone := ph;
     Req.dob := Some (str "1990-05-17");
     Req.bloodType := bt;
     Req.gender := Some (str "Male");
     Req.address := Some (str "12 Lake Road");
     Req.city := Some (str "Dhaka");
     Req.zipCode := Some (str "1207");
     Req.nidNumber := nid;
     Req.registeredBy := None |}.

Definition karim : Req.payload :=
  registration (Some (str "k@example.com")) (Some (str "+8801711112222"))
    (Some (str "O+")) None.

(** The example payload of the interface description: no [dob], [address]
    or [zipCode]. *)
Definition karim_short : Req.payload :=
  {| Req.firstName := Some (str "Karim");
     Req.lastName := Some (str "Uddin");
     Req.email := Some (str "k@example.com");
     Req.phone := Some (str "+8801711112222");
     Req.dob := None;
     Req.bloodType := Some (str "O+");
     Req.gender := Some (str "Male");
     Req.address := None;
     Req.city := Some (str "Dhaka");
     Req.zipCode := None;
     Req.nidNumber := None;
     Req.registeredBy := None |}.

Definition quiet (t : timestamp) : env :=
  {| t_insert := t; insert_fault := false;
     t_update := t; update_fault := false |}.

(** A new store after its first start-up. *)
Definition first_boot : Store.db :=
  Startup.startup 1699990000%Z Store.empty_db.

(** [karim] with a blood type that is not one of the eight. *)
Definition karim_unlisted : Req.payload :=
  registration (Some (str "k@example.com")) (Some (str "+8801711112222"))
    (Some (str "C+")) None.

(** [karim] with a national ID. *)
Definition karim_with_nid : Req.payload :=
  registration (Some (str "k@example.com")) (Some (str "+8801711112222"))
    (Some (str "O+")) (Some (str "12345678901234567")).

(** Both statements run in the same second, and the store does not fail. *)
Definition calm : env := quiet 1700000000%Z.

(** Two registrations after the first start-up, an hour apart. *)
Definition two_donors : Store.db :=
  snd (post_donors (quiet 1700003600%Z) karim_unlisted
         (snd (post_donors calm karim first_boot))).

End Samples.

(* ================================================================== *)
(** * What the stores of a run satisfy *)
(* ================================================================== *)

Module Invariants.
Import CharClass Patterns Store Handlers Server Shapes.

(** The blood types and the user names the two [UNIQUE] columns hold. *)
Definition inventory_types (s : db) : list jsstr :=
  map Inventory.bloodType (blood_inventory s).

Definition admin_names (s : db) : list jsstr :=
  map Admin.username (admins s).

(** How many donor rows have blood type [t]. *)
Definition donors_of_type (t : jsstr) (l : list Donor.row) : Z :=
  Z.of_nat
    (List.length (filter (fun d => jsstr_eqb (Donor.bloodType d) t) l)).

(** A national ID as a stored row may hold it: none, the empty string, or
    seventeen digits. *)
Definition nid_stored (v : sqltext) : Prop :=
  v = None \/ v = Some [] \/ exists n, v = Some n /\ digits 17 n.

(** A donor row that went through the four guards of the handler. *)
Definition validated (d : Donor.row) : Prop :=
  Donor.firstName d <> [] /\ Donor.lastName d <> []
  /\ Donor.bloodType d <> [] /\ Donor.gender d <> []
  /\ Donor.city d <> []
  /\ email_shape (Donor.email d)
  /\ phone_shape (strip_spaces (Donor.phone d))
  /\ nid_stored (Donor.nidNumber d)
  /\ Donor.status d = str "Active"
  /\ Donor.registeredBy d <> [].

(** The four messages of the validation guards. *)
Definition validation_message (m : message) : Prop :=
  m = MsgRequired \/ m = MsgEmail \/ m = MsgPhone \/ m = MsgNid.

(** An event whose inventory [UPDATE], if it issues one, does not fail. *)
Definition update_runs (ev : event) : Prop :=
  match ev with
  | EvRegister e _ => update_fault e = false
  | _ => True
  end.

(** The stores of a server that seeds a new database before it serves, and
    whose inventory updates all run. *)
Inductive in_sync : db -> Prop :=
| sync_boot : forall t, in_sync (Startup.startup t empty_db)
| sync_step : forall ev s,
    in_sync s -> update_runs ev -> in_sync (step ev s).

(** One inventory row before and after a registration: the same type, and
    at most one unit more. *)
Definition counted_once (r r' : Inventory.row) : Prop :=
  Inventory.bloodType r' = Inventory.bloodType r
  /\ (Inventory.units r <= Inventory.units r' <= Inventory.units r + 1)%Z.

(** The store a registration leaves when its insert succeeded and gave
    [s1]: the inventory update applied, unless it failed. *)
Definition after_update (e : env) (p : Req.payload) (s1 : db) : db :=
  if update_fault e then s1
  else {| donors := donors s1; donors_seq := donors_seq s1;
          admins := admins s1;
          blood_inventory :=
            map (bump (t_update e)
                   (Binding.bound_text (ToString (Req.bloodType p))))
              (blood_inventory s1) |}.

(** A run of the server: the first start-up on a new database, then two
    registrations an hour apart. *)
Definition later : env := Samples.quiet 1700003600%Z.

Definition one_donor : db :=
  step (EvRegister Samples.calm Samples.karim) Samples.first_boot.

Definition sample_run : db :=
  step (EvRegister later Samples.karim_unlisted) one_donor.

(** The insert runs, the inventory update fails. *)
Definition update_fails : env :=
  {| t_insert := 1700000000%Z; insert_fault := false;
     t_update := 1700000000%Z; update_fault := true |}.

End Invariants.

(* ================================================================== *)
(** * Properties of the matcher *)
(* ================================================================== *)

Module RegexFacts.
Import Regex.

Ltac inv H := inversion H; subst; clear H.

Lemma cat_cons (a b : re) (c : code_unit) (s t : jsstr) :
  matches a (c :: s) -> matches b t -> matches (Cat a b) (c :: s ++ t).
Proof. intros Ha Hb. exact (m_cat Ha Hb). Qed.

Lemma cat_nil_l (a b : re) (t : jsstr) :
  matches a [] -> matches b t -> matches (Cat a b) t.
Proof. intros Ha Hb. exact (m_cat Ha Hb). Qed.

Lemma nullable_matches (r : re) : nullable r = true <-> matches r [].
Proof.
  induction r as [| | p | a IHa b IHb | a IHa b IHb | a IHa]; simpl;
    split; intro H; try discriminate; eauto with regex.
  - inv H.
  - inv H.
  - apply andb_true_iff in H as [Ha Hb].
    apply cat_nil_l; [apply IHa | apply IHb]; assumption.
  - inversion H as [| | a' b' s t Hs Ht Eab Est | | | |]; subst.
    apply app_eq_nil in Est as [-> ->].
    apply andb_true_iff; split; [apply IHa | apply IHb]; assumption.
  - apply orb_true_iff in H as [Ha | Hb];
      [apply m_alt_l, IHa | apply m_alt_r, IHb]; assumption.
  - apply orb_true_iff.
    inv H; [left; apply IHa | right; apply IHb]; assumption.
Qed.

(** A non-empty member of [Star a] starts with a non-empty member of [a]. *)
Lemma star_cons (a : re) (c : code_unit) (s : jsstr) :
  matches (Star a) (c :: s) ->
  exists u v, s = u ++ v /\ matches a (c :: u) /\ matches (Star a) v.
Proof.
  intro H. remember (Star a) as r eqn:Er. remember (c :: s) as w eqn:Ew.
  revert c s Ew.
  induction H as [| | | | | | a' u v Hu _ Hv IHv];
    intros c0 s0 Ew; try discriminate.
  inversion Er; subst a'. destruct u as [| d u'].
  - simpl in Ew. subst v. apply IHv; reflexivity.
  - simpl in Ew. inversion Ew; subst. exists u', v. auto.
Qed.

Lemma deriv_sound (r : re) (c : code_unit) (s : jsstr) :
  matches (deriv c r) s -> matches r (c :: s).
Proof.
  revert s.
  induction r as [| | p | a IHa b IHb | a IHa b IHb | a IHa];
    intros s H; simpl in H.
  - inv H.
  - inv H.
  - destruct (p c) eqn:E; inv H. constructor; assumption.
  - destruct (nullable a) eqn:Na.
    + inversion H as [| | | a' b' s' Hl | a' b' s' Hr | |]; subst.
      * inversion Hl as [| | a' b' u v Hu Hv | | | |]; subst.
        apply cat_cons; auto.
      * apply cat_nil_l; [apply nullable_matches; assumption | auto].
    + inversion H as [| | a' b' u v Hu Hv | | | |]; subst.
      apply cat_cons; auto.
  - inv H; [apply m_alt_l | apply m_alt_r]; auto.
  - inversion H as [| | a' b' u v Hu Hv | | | |]; subst.
    exact (m_star_app (IHa _ Hu) Hv).
Qed.

Lemma deriv_complete (r : re) (c : code_unit) (s : jsstr) :
  matches r (c :: s) -> matches (deriv c r) s.
Proof.
  revert s.
  induction r as [| | p | a IHa b IHb | a IHa b IHb | a IHa];
    intros s H; simpl.
  - inv H.
  - inv H.
  - inversion H as [| p' c' Hp | | | | |]; subst. rewrite Hp. constructor.
  - inversion H as [| | a' b' u v Hu Hv Eab Euv | | | |]; subst.
    destruct u as [| d u'].
    + simpl in Euv. subst v.
      apply nullable_matches in Hu. rewrite Hu.
      apply m_alt_r. auto.
    + simpl in Euv. inversion Euv; subst.
      destruct (nullable a);
        [apply m_alt_l |]; constructor; auto.
  - inv H; [apply m_alt_l | apply m_alt_r]; auto.
  - apply star_cons in H as (u & v & -> & Hu & Hv).
    constructor; auto.
Qed.

(** The matcher decides the language. *)
Theorem test_matches (r : re) (s : jsstr) :
  test r s = true <-> matches r s.
Proof.
  revert r. induction s as [| c s IH]; intro r; simpl.
  - apply nullable_matches.
  - rewrite IH. split; [apply deriv_sound | apply deriv_complete].
Qed.

End RegexFacts.

(* ================================================================== *)
(** * The languages of the three patterns *)
(* ================================================================== *)

Module PatternFacts.
Import Regex RegexFacts CharClass Patterns Shapes.

Lemma matches_cat (a b : re) (s : jsstr) :
  matches (Cat a b) s <->
  exists u v, s = u ++ v /\ matches a u /\ matches b v.
Proof.
  split.
  - intro H. inversion H as [| | a' b' u v Hu Hv | | | |]; subst.
    exists u, v. auto.
  - intros (u & v & -> & Hu & Hv). constructor; assumption.
Qed.

Lemma matches_cls (p : code_unit -> bool) (s : jsstr) :
  matches (Cls p) s <-> exists c, s = [c] /\ p c = true.
Proof.
  split.
  - intro H. inversion H as [| p' c Hp | | | | |]; subst. eauto.
  - intros (c & -> & Hp). constructor; assumption.
Qed.

Lemma matches_chr (k : code_unit) (s : jsstr) :
  matches (Chr k) s <-> s = [k].
Proof.
  unfold Chr, exactly. rewrite matches_cls. split.
  - intros (c & -> & Hc). apply N.eqb_eq in Hc. subst. reflexivity.
  - intros ->. exists k. split; [reflexivity | apply N.eqb_refl].
Qed.

Lemma matches_opt (a : re) (s : jsstr) :
  matches (Opt a) s <-> matches a s \/ s = [].
Proof.
  unfold Opt. split.
  - intro H. inversion H as [| | | a' b' s' Hl | a' b' s' Hr | |]; subst.
    + left; assumption.
    + inversion Hr; subst. right; reflexivity.
  - intros [H | ->]; [apply m_alt_l | apply m_alt_r]; auto with regex.
Qed.

Lemma matches_star_cls (p : code_unit -> bool) (s : jsstr) :
  matches (Star (Cls p)) s <-> all p s.
Proof.
  unfold all. split.
  - intro H. remember (Star (Cls p)) as r eqn:Er.
    induction H as [| | | | | | a u v Hu _ Hv IHv]; try discriminate.
    + constructor.
    + inversion Er; subst a. apply matches_cls in Hu as (c & -> & Hc).
      simpl. constructor; auto.
  - induction 1 as [| c t Hc _ IH].
    + constructor.
    + change (c :: t) with ([c] ++ t).
      constructor; [constructor |]; assumption.
Qed.

Lemma matches_plus_cls (p : code_unit -> bool) (s : jsstr) :
  matches (Plus (Cls p)) s <-> s <> [] /\ all p s.
Proof.
  unfold Plus. rewrite matches_cat. split.
  - intros (u & v & -> & Hu & Hv).
    apply matches_cls in Hu as (c & -> & Hc).
    apply matches_star_cls in Hv.
    split; [discriminate | constructor; assumption].
  - intros [Hne Hall]. destruct s as [| c t]; [contradiction |].
    inversion Hall; subst.
    exists [c], t. repeat split.
    + apply matches_cls. eauto.
    + apply matches_star_cls. assumption.
Qed.

Lemma matches_rep_cls (p : code_unit -> bool) (n : nat) (s : jsstr) :
  matches (Rep n (Cls p)) s <-> List.length s = n /\ all p s.
Proof.
  unfold all. revert s. induction n as [| n IH]; intro s; simpl.
  - split.
    + intro H. inversion H; subst. split; [reflexivity | constructor].
    + intros [Hl _]. destruct s; [constructor | discriminate].
  - rewrite matches_cat. split.
    + intros (u & v & -> & Hu & Hv).
      apply matches_cls in Hu as (c & -> & Hc).
      apply IH in Hv as [Hl Hall]. simpl.
      split; [congruence | constructor; assumption].
    + intros [Hl Hall]. destruct s as [| c t]; [discriminate |].
      inversion Hall; subst. simpl in Hl.
      exists [c], t. repeat split.
      * apply matches_cls. eauto.
      * apply IH. split; [congruence | assumption].
Qed.

(** [emailRegex] accepts exactly the strings [local@domain.tld]. *)
Lemma emailRegex_shape (e : jsstr) :
  test emailRegex e = true <-> email_shape e.
Proof.
  rewrite test_matches. unfold emailRegex, email_shape, email_part.
  split.
  - intro H.
    apply matches_cat in H as (l & r1 & -> & Hl & H).
    apply matches_cat in H as (a & r2 & -> & Ha & H).
    apply matches_cat in H as (d & r3 & -> & Hd & H).
    apply matches_cat in H as (o & t & -> & Ho & Ht).
    apply matches_chr in Ha, Ho. subst a o.
    apply matches_plus_cls in Hl, Hd, Ht.
    exists l, d, t. auto.
  - intros (l & d & t & -> & Hl & Hd & Ht).
    apply matches_plus_cls in Hl, Hd, Ht.
    apply matches_cat. exists l, (AT :: d ++ DOT :: t).
    split; [reflexivity | split; [assumption |]].
    apply matches_cat. exists [AT], (d ++ DOT :: t).
    split; [reflexivity | split; [apply matches_chr; reflexivity |]].
    apply matches_cat. exists d, (DOT :: t).
    split; [reflexivity | split; [assumption |]].
    apply matches_cat. exists [DOT], t.
    split; [reflexivity | split; [apply matches_chr; reflexivity |]].
    assumption.
Qed.

(** The NID pattern accepts exactly the strings of seventeen digits. *)
Lemma nidRegex_shape (n : jsstr) :
  test nidRegex n = true <-> digits 17 n.
Proof.
  rewrite test_matches. unfold nidRegex, digits. apply matches_rep_cls.
Qed.

Lemma strip_spaces_no_space (s : jsstr) :
  all (fun c => negb (space c)) (strip_spaces s).
Proof.
  unfold all, strip_spaces. apply Forall_forall. intros c Hc.
  apply filter_In in Hc. tauto.
Qed.

(** [phoneRegex] on a string without whitespace: the [\s?] of the pattern
    has nothing to take. *)
Lemma phoneRegex_shape (s : jsstr) :
  all (fun c => negb (space c)) s ->
  test phoneRegex s = true <-> phone_shape s.
Proof.
  intro Hns. rewrite test_matches. unfold phoneRegex, phone_shape.
  split.
  - intro H.
    apply matches_cat in H as (pl & r1 & -> & Hpl & H).
    apply matches_cat in H as (e1 & r2 & -> & He1 & H).
    apply matches_cat in H as (e2 & r3 & -> & He2 & H).
    apply matches_cat in H as (z & r4 & -> & Hz & H).
    apply matches_cat in H as (w & r5 & -> & Hw & H).
    apply matches_cat in H as (o & r6 & -> & Ho & H).
    apply matches_cat in H as (a & ds & -> & Ha & Hds).
    apply matches_chr in He1, He2, Ho. subst e1 e2 o.
    apply matches_cls in Ha as (c & -> & Hc).
    apply matches_rep_cls in Hds.
    apply matches_opt in Hpl, Hz, Hw.
    rewrite matches_chr in Hpl, Hz.
    assert (Ew : w = []).
    { destruct Hw as [Hw | Hw]; [| assumption].
      apply matches_cls in Hw as (x & -> & Hx). exfalso.
      unfold all in Hns. rewrite Forall_forall in Hns.
      specialize (Hns x). rewrite Hx in Hns. simpl in Hns.
      assert (In x (pl ++ [D8] ++ [D8] ++ z ++ [x] ++ [D1] ++ [c] ++ ds)).
      { do 4 (apply in_or_app; right). left. reflexivity. }
      specialize (Hns H). discriminate. }
    subst w. exists pl, z, c, ds. simpl.
    repeat split; try tauto; try apply Hds.
  - intros (pl & z & a & ds & -> & Hpl & Hz & Ha & Hds).
    apply matches_cat. exists pl, (str "88" ++ z ++ D1 :: a :: ds).
    split; [reflexivity | split].
    { apply matches_opt. rewrite matches_chr. tauto. }
    apply matches_cat. exists [D8], (D8 :: z ++ D1 :: a :: ds).
    split; [reflexivity | split; [apply matches_chr; reflexivity |]].
    apply matches_cat. exists [D8], (z ++ D1 :: a :: ds).
    split; [reflexivity | split; [apply matches_chr; reflexivity |]].
    apply matches_cat. exists z, (D1 :: a :: ds).
    split; [reflexivity | split].
    { apply matches_opt. rewrite matches_chr. tauto. }
    apply matches_cat. exists [], (D1 :: a :: ds).
    split; [reflexivity | split].
    { apply matches_opt. right. reflexivity. }
    apply matches_cat. exists [D1], (a :: ds).
    split; [reflexivity | split; [apply matches_chr; reflexivity |]].
    apply matches_cat. exists [a], ds.
    split; [reflexivity | split].
    { apply matches_cls. eauto. }
    apply matches_rep_cls. assumption.
Qed.

(** Every [+8801[3-9]XXXXXXXX] is among the accepted strings. *)
Lemma plus880_phone_shape (s : jsstr) : plus880_shape s -> phone_shape s.
Proof.
  intros (a & ds & -> & Ha & Hds).
  exists [PLUS], [D0], a, ds. repeat split; auto; apply Hds.
Qed.

End PatternFacts.

(* ================================================================== *)
(** * The binding conversion *)
(* ================================================================== *)

Module BindingFacts.
Import CharClass Binding Patterns Shapes Handlers PatternFacts.

(** Induction over a string two code units at a time, as [bound_text]
    reads it. *)
Lemma jsstr_pair_ind (P : jsstr -> Prop) :
  P [] ->
  (forall c, P [c]) ->
  (forall c d t, P t -> P (d :: t) -> P (c :: d :: t)) ->
  forall s, P s.
Proof.
  intros H0 H1 H2 s.
  assert (H : P s /\ forall c, P (c :: s)).
  { induction s as [| d t [IHt IHc]]; [auto |].
    split; [apply IHc |]. intro c. apply H2; [exact IHt | apply IHc]. }
  apply H.
Qed.

Lemma bound_text_one (c : code_unit) :
  bound_text [c] = if surrogate c then [REPLACEMENT] else [c].
Proof.
  unfold surrogate. simpl.
  destruct (high_surrogate c); [reflexivity |].
  destruct (low_surrogate c); reflexivity.
Qed.

Lemma bound_text_two (c d : code_unit) (t : jsstr) :
  bound_text (c :: d :: t)
  = if high_surrogate c
    then if low_surrogate d then c :: d :: bound_text t
         else REPLACEMENT :: bound_text (d :: t)
    else if low_surrogate c then REPLACEMENT :: bound_text (d :: t)
         else c :: bound_text (d :: t).
Proof. reflexivity. Qed.

(** A code unit that is no surrogate goes through as it is. *)
Lemma bound_text_plain (c : code_unit) (t : jsstr) :
  surrogate c = false -> bound_text (c :: t) = c :: bound_text t.
Proof.
  unfold surrogate. intro H. apply orb_false_iff in H as [Hh Hl].
  simpl. rewrite Hh, Hl. reflexivity.
Qed.

(** A string without surrogates is stored as it is. *)
Lemma bound_text_same (s : jsstr) :
  Forall (fun c => surrogate c = false) s -> bound_text s = s.
Proof.
  induction 1 as [| c t Hc _ IH]; [reflexivity |].
  rewrite (@bound_text_plain c t Hc), IH. reflexivity.
Qed.

Lemma bound_text_nonempty (s : jsstr) : s <> [] -> bound_text s <> [].
Proof.
  destruct s as [| c [| d t]]; [contradiction | |]; intros _.
  - rewrite bound_text_one. destruct (surrogate c); discriminate.
  - rewrite bound_text_two.
    destruct (high_surrogate c), (low_surrogate d), (low_surrogate c);
      discriminate.
Qed.

(** What holds of every code unit of [s] and of U+FFFD holds of every code
    unit stored. *)
Lemma bound_text_all (P : code_unit -> Prop) (s : jsstr) :
  P REPLACEMENT -> Forall P s -> Forall P (bound_text s).
Proof.
  intro HR. induction s as [| c | c d t IHt IHd] using jsstr_pair_ind;
    intro H.
  - constructor.
  - rewrite bound_text_one. inversion H; subst.
    destruct (surrogate c); repeat constructor; assumption.
  - rewrite bound_text_two.
    inversion H as [| c' l' Hc Hdt]; subst.
    inversion Hdt as [| d' l'' Hd Ht]; subst.
    destruct (high_surrogate c).
    + destruct (low_surrogate d); constructor; auto.
    + destruct (low_surrogate c); constructor; auto.
Qed.

Lemma surrogate_above (c : code_unit) :
  surrogate c = true -> (55296 <= c)%N.
Proof.
  unfold surrogate, high_surrogate, low_surrogate, in_range.
  intro H. apply orb_true_iff in H as [H | H];
    apply andb_true_iff in H as [H _]; apply N.leb_le in H; lia.
Qed.

(** If nothing stored is a surrogate or U+FFFD, nothing was replaced. *)
Lemma bound_text_below (s : jsstr) :
  Forall (fun c => (c < 55296)%N) (bound_text s) -> bound_text s = s.
Proof.
  intro H. apply bound_text_same.
  induction s as [| c | c d t IHt IHd] using jsstr_pair_ind.
  - constructor.
  - rewrite bound_text_one in H. destruct (surrogate c) eqn:E.
    + inversion H as [| x l Hx _]; subst. vm_compute in Hx. discriminate.
    + repeat constructor. exact E.
  - rewrite bound_text_two in H.
    assert (Hh : high_surrogate c = true -> (55296 <= c)%N).
    { intro Hc. apply surrogate_above. unfold surrogate. rewrite Hc.
      reflexivity. }
    destruct (high_surrogate c) eqn:Eh.
    + specialize (Hh eq_refl). destruct (low_surrogate d).
      * inversion H; subst. lia.
      * inversion H as [| x l Hx _]; subst. vm_compute in Hx. discriminate.
    + destruct (low_surrogate c) eqn:El.
      * inversion H as [| x l Hx _]; subst. vm_compute in Hx. discriminate.
      * inversion H as [| x l Hx Hl]; subst.
        constructor; [unfold surrogate; rewrite Eh, El; reflexivity |].
        apply IHd. exact Hl.
Qed.

(** The conversion works on either side of a code unit that is no
    surrogate. *)
Lemma bound_text_app_plain (a b : jsstr) (c : code_unit) :
  surrogate c = false ->
  bound_text (a ++ c :: b) = bound_text a ++ c :: bound_text b.
Proof.
  intro Hc.
  assert (Hl : low_surrogate c = false).
  { unfold surrogate in Hc. apply orb_false_iff in Hc. tauto. }
  induction a as [| x | x y t IHt IHy] using jsstr_pair_ind.
  - simpl app. apply bound_text_plain, Hc.
  - simpl app. rewrite bound_text_two, Hl.
    rewrite (@bound_text_plain c b Hc).
    destruct (high_surrogate x); [reflexivity |].
    destruct (low_surrogate x); reflexivity.
  - change ((x :: y :: t) ++ c :: b) with (x :: y :: (t ++ c :: b)).
    rewrite !bound_text_two.
    change (y :: t ++ c :: b) with ((y :: t) ++ c :: b).
    rewrite IHt, IHy.
    destruct (high_surrogate x).
    + destruct (low_surrogate y); reflexivity.
    + destruct (low_surrogate x); reflexivity.
Qed.

Lemma not_surrogate (c : code_unit) :
  (c < 55296 \/ 57343 < c)%N -> surrogate c = false.
Proof.
  unfold surrogate, high_surrogate, low_surrogate, in_range. intro H.
  apply orb_false_iff. split; apply andb_false_iff.
  - destruct H as [H | H]; [left | right]; apply N.leb_gt; lia.
  - destruct H as [H | H]; [left | right]; apply N.leb_gt; lia.
Qed.

Lemma digit_not_surrogate (c : code_unit) :
  digit c = true -> surrogate c = false.
Proof.
  unfold digit, in_range. intro H. apply andb_true_iff in H as [_ H].
  apply N.leb_le in H. apply not_surrogate. lia.
Qed.

Lemma space_not_surrogate (c : code_unit) :
  space c = true -> surrogate c = false.
Proof.
  unfold space, in_range. intro H. apply not_surrogate.
  repeat (apply orb_true_iff in H as [H | H]);
    try (apply N.eqb_eq in H; lia);
    apply andb_true_iff in H as [_ H]; apply N.leb_le in H; lia.
Qed.

Lemma digit_3_9_digit (c : code_unit) :
  digit_3_9 c = true -> digit c = true.
Proof.
  unfold digit_3_9, digit, in_range. intro H.
  apply andb_true_iff in H as [H1 H2]. apply N.leb_le in H1.
  apply andb_true_iff. split; [apply N.leb_le; lia | exact H2].
Qed.

(** An accepted number without its optional [+]: [88] and ten or eleven
    more code units, all digits. *)
Lemma phone_shape_body (s : jsstr) :
  phone_shape s ->
  exists body rest,
    (s = body \/ s = PLUS :: body)
    /\ body = str "88" ++ rest
    /\ (10 <= List.length rest <= 11)%nat
    /\ all digit rest.
Proof.
  intros (pl & z & a & ds & -> & Hpl & Hz & Ha & Hl & Hd).
  apply digit_3_9_digit in Ha.
  exists (str "88" ++ z ++ D1 :: a :: ds), (z ++ D1 :: a :: ds).
  split; [destruct Hpl as [-> | ->]; [left | right]; reflexivity |].
  split; [reflexivity |].
  assert (Hz' : (List.length z <= 1)%nat /\ all digit z).
  { destruct Hz as [-> | ->]; split; simpl; try lia;
      repeat constructor. }
  destruct Hz' as [Hzl Hzd]. split.
  - rewrite length_app. simpl. rewrite Hl. lia.
  - unfold all. apply Forall_app. split; [exact Hzd |].
    constructor; [reflexivity |]. constructor; [exact Ha | exact Hd].
Qed.

(** A phone the guard accepts holds no surrogate: the binding stores it
    as it was sent, whitespace included. *)
Lemma accepted_phone_plain (ph : jsstr) :
  phone_ok ph = true -> bound_text ph = ph.
Proof.
  intro H. unfold phone_ok in H.
  apply (phoneRegex_shape (strip_spaces_no_space ph)) in H.
  apply phone_shape_body in H as (body & rest & Hs & -> & _ & Hd).
  apply bound_text_same. apply Forall_forall. intros c Hc.
  destruct (space c) eqn:E; [apply space_not_surrogate, E |].
  assert (Hin : In c (strip_spaces ph)).
  { unfold strip_spaces. apply filter_In. rewrite E. auto. }
  assert (Hb : In c (PLUS :: str "88" ++ rest)).
  { destruct Hs as [Hs | Hs]; rewrite Hs in Hin;
      [right; exact Hin | exact Hin]. }
  simpl in Hb. destruct Hb as [<- | [<- | [<- | Hb]]];
    try (apply not_surrogate; left; reflexivity).
  unfold all in Hd. rewrite Forall_forall in Hd.
  apply digit_not_surrogate, Hd, Hb.
Qed.

(** A string of digits is stored as it is. *)
Lemma digits_plain (n : nat) (s : jsstr) :
  digits n s -> bound_text s = s.
Proof.
  intros [_ H]. apply bound_text_same.
  eapply Forall_impl; [| exact H]. apply digit_not_surrogate.
Qed.

(** A national ID that went through the NID guard is absent, empty or
    seventeen digits, and is stored as it is. *)
Lemma nid_guard_plain (p : Req.payload) :
  nid_bad p = false ->
  option_map bound_text (Req.nidNumber p) = Req.nidNumber p
  /\ (forall c t, Req.nidNumber p = Some (c :: t) -> digits 17 (c :: t)).
Proof.
  unfold nid_bad. intro H.
  destruct (Req.nidNumber p) as [[| c t] |].
  - split; [reflexivity | discriminate].
  - cbn [truthy andb] in H. apply negb_false_iff in H.
    unfold ToString in H. apply nidRegex_shape in H.
    split.
    + cbn [option_map]. rewrite (digits_plain H). reflexivity.
    + intros c' t' E. injection E as <- <-. exact H.
  - split; [reflexivity | discriminate].
Qed.

(** The stored form of an address of the shape [local@domain.tld] has
    that shape. *)
Lemma bound_email_shape (em : jsstr) :
  email_shape em -> email_shape (bound_text em).
Proof.
  intros (l & d & t & -> & [Hl Hla] & [Hd Hda] & [Ht Hta]).
  exists (bound_text l), (bound_text d), (bound_text t).
  split.
  - rewrite bound_text_app_plain by (apply not_surrogate; left; reflexivity).
    rewrite bound_text_app_plain by (apply not_surrogate; left; reflexivity).
    reflexivity.
  - unfold email_part, all.
    repeat split; try (apply bound_text_nonempty; assumption);
      apply bound_text_all; try reflexivity; assumption.
Qed.

End BindingFacts.

(* ================================================================== *)
(** * Validation of a registration *)
(* ================================================================== *)

Module ValidationFacts.
Import Regex RegexFacts CharClass Patterns Shapes PatternFacts.
Import Store Handlers Samples.

Lemma truthy_false (v : option jsstr) :
  truthy v = false <-> absent_or_empty v.
Proof.
  unfold absent_or_empty. destruct v as [[| c t] |]; simpl; split;
    intro H; try reflexivity; try discriminate; auto.
  destruct H as [H | H]; discriminate.
Qed.

Lemma truthy_some (v : option jsstr) :
  truthy v = true -> exists c t, v = Some (c :: t).
Proof.
  destruct v as [[| c t] |]; simpl; intro H; try discriminate. eauto.
Qed.

Lemma missing_required_false (p : Req.payload) :
  missing_required p = false ->
  truthy (Req.firstName p) = true /\ truthy (Req.lastName p) = true
  /\ truthy (Req.email p) = true /\ truthy (Req.phone p) = true
  /\ truthy (Req.bloodType p) = true /\ truthy (Req.gender p) = true
  /\ truthy (Req.city p) = true.
Proof.
  unfold missing_required. intro H.
  repeat (apply orb_false_iff in H as [H ?]).
  repeat match goal with
         | X : negb _ = false |- _ => apply negb_false_iff in X
         end.
  tauto.
Qed.

(** The handler is its four guards followed by the two writes. *)
Lemma post_donors_validate (e : env) (p : Req.payload) (s : db) :
  post_donors e p s =
  match validate p with
  | Some m => (Json 400 (Failure m), s)
  | None => persist e p s
  end.
Proof.
  unfold post_donors, validate.
  destruct (missing_required p) eqn:Hm; [reflexivity |].
  destruct (negb (email_ok p)); [reflexivity |].
  apply missing_required_false in Hm as (_ & _ & _ & Hph & _).
  apply truthy_some in Hph as (c & t & ->). simpl.
  destruct (negb (phone_ok (c :: t))); [reflexivity |].
  destruct (nid_bad p); reflexivity.
Qed.

(** No request makes the handler throw. *)
Lemma post_donors_replies (e : env) (p : Req.payload) (s : db) :
  fst (post_donors e p s) <> TypeError.
Proof.
  rewrite post_donors_validate. destruct (validate p); [discriminate |].
  unfold persist. destruct insert_donor as [[s1 i] |]; discriminate.
Qed.

Lemma persist_status (e : env) (p : Req.payload) (s : db) (m : message) :
  fst (persist e p s) <> Json 400 (Failure m).
Proof.
  unfold persist. destruct insert_donor as [[s1 i] |]; discriminate.
Qed.

(** C2.  A registration in which one of [firstName], [lastName], [email],
    [phone], [bloodType], [gender], [city] is absent or empty is answered
    with status 400 and the missing-fields message, and the store is left
    as it was: no donor row is inserted and no inventory row changes. *)
Theorem missing_field_rejected (e : env) (p : Req.payload) (s : db) :
  absent_or_empty (Req.firstName p) \/ absent_or_empty (Req.lastName p)
  \/ absent_or_empty (Req.email p) \/ absent_or_empty (Req.phone p)
  \/ absent_or_empty (Req.bloodType p) \/ absent_or_empty (Req.gender p)
  \/ absent_or_empty (Req.city p) ->
  post_donors e p s = (Json 400 (Failure MsgRequired), s)
  /\ donors (snd (post_donors e p s)) = donors s
  /\ blood_inventory (snd (post_donors e p s)) = blood_inventory s.
Proof.
  intro H.
  assert (Hm : missing_required p = true).
  { unfold missing_required.
    repeat rewrite orb_true_iff. repeat rewrite negb_true_iff.
    repeat rewrite truthy_false. tauto. }
  unfold post_donors. rewrite Hm. auto.
Qed.

Lemma missing_field_rejected_witness :
  post_donors calm (registration None (Some (str "+8801711112222"))
                           (Some (str "O+")) None) empty_db
  = (Json 400 (Failure MsgRequired), empty_db).
Proof.
  apply (missing_field_rejected calm
           (registration None (Some (str "+8801711112222"))
              (Some (str "O+")) None) empty_db).
  right. right. left. left. reflexivity.
Defined.

(** C6.  Among the requests that reach the email guard, the guard passes
    exactly the addresses of the shape [local@domain.tld] with non-empty
    parts (runs of code units that are neither whitespace nor [@]): an
    address of another shape is answered with status 400 and the email
    message and leaves the store unchanged, and an address of that shape is
    never answered with the email message. *)
Theorem email_check_exact (e : env) (p : Req.payload) (s : db)
    (em : jsstr) :
  missing_required p = false ->
  Req.email p = Some em ->
  (email_ok p = true <-> email_shape em)
  /\ (~ email_shape em ->
      post_donors e p s = (Json 400 (Failure MsgEmail), s))
  /\ (email_shape em ->
      validate p <> Some MsgEmail
      /\ fst (post_donors e p s) <> Json 400 (Failure MsgEmail)).
Proof.
  intros Hm Hem.
  assert (Hok : email_ok p = true <-> email_shape em).
  { unfold email_ok. rewrite Hem. simpl. apply emailRegex_shape. }
  split; [exact Hok | split].
  - intro Hn. unfold post_donors. rewrite Hm.
    destruct (email_ok p); [exfalso; apply Hn, Hok; reflexivity |].
    reflexivity.
  - intro Hs. apply Hok in Hs.
    assert (Hv : validate p <> Some MsgEmail).
    { unfold validate. rewrite Hm, Hs. simpl.
      destruct (negb (phone_ok _)); [discriminate |].
      destruct (nid_bad p); discriminate. }
    split; [exact Hv |].
    rewrite post_donors_validate.
    destruct (validate p) as [m |]; [| apply persist_status].
    simpl. congruence.
Qed.

Lemma email_check_exact_witness :
  post_donors calm
    (registration (Some (str "karim at example"))
       (Some (str "+8801711112222")) (Some (str "O+")) None) empty_db
  = (Json 400 (Failure MsgEmail), empty_db).
Proof.
  refine (proj1 (proj2 (email_check_exact calm
            (registration (Some (str "karim at example"))
               (Some (str "+8801711112222")) (Some (str "O+")) None)
            empty_db (em := str "karim at example") _ _)) _).
  - reflexivity.
  - reflexivity.
  - intro H. apply emailRegex_shape in H. vm_compute in H. discriminate H.
Defined.

(** C3, as the code has it.  Among the requests that reach the phone
    guard, the guard passes exactly the numbers that, once their
    whitespace is removed, are an optional [+], [88], an optional [0],
    then [1], a digit 3 to 9 and eight more digits.  Every
    [+8801[3-9]XXXXXXXX] is one of them; every other string is answered
    with status 400 and the phone-format message and leaves the store
    unchanged. *)
Theorem phone_check_exact (e : env) (p : Req.payload) (s : db)
    (ph : jsstr) :
  missing_required p = false ->
  email_ok p = true ->
  Req.phone p = Some ph ->
  (phone_ok ph = true <-> phone_shape (strip_spaces ph))
  /\ (plus880_shape (strip_spaces ph) -> phone_ok ph = true)
  /\ (~ phone_shape (strip_spaces ph) ->
      post_donors e p s = (Json 400 (Failure MsgPhone), s))
  /\ (phone_shape (strip_spaces ph) ->
      fst (post_donors e p s) <> Json 400 (Failure MsgPhone)).
Proof.
  intros Hm Hem Hph.
  assert (Hok : phone_ok ph = true <-> phone_shape (strip_spaces ph)).
  { unfold phone_ok. apply phoneRegex_shape, strip_spaces_no_space. }
  split; [exact Hok | split; [| split]].
  - intro H. apply Hok, plus880_phone_shape, H.
  - intro Hn. unfold post_donors. rewrite Hm, Hem, Hph. simpl.
    destruct (phone_ok ph); [exfalso; apply Hn, Hok; reflexivity |].
    reflexivity.
  - intro Hs. apply Hok in Hs.
    unfold post_donors. rewrite Hm, Hem, Hph, Hs. simpl.
    destruct (nid_bad p); [discriminate | apply persist_status].
Qed.

Lemma phone_check_exact_witness :
  post_donors calm
    (registration (Some (str "k@example.com")) (Some (str "12345"))
       (Some (str "O+")) None) empty_db
  = (Json 400 (Failure MsgPhone), empty_db).
Proof.
  refine (proj1 (proj2 (proj2 (phone_check_exact calm
            (registration (Some (str "k@example.com")) (Some (str "12345"))
               (Some (str "O+")) None)
            empty_db (ph := str "12345") _ _ _))) _).
  - reflexivity.
  - reflexivity.
  - reflexivity.
  - intro H. apply (phoneRegex_shape (strip_spaces_no_space _)) in H.
    vm_compute in H. discriminate H.
Defined.

(** C3 as stated fails: [8801711112222] has no leading [+] and
    [+881711112222] has no [0] after [88], so neither is of the shape
    [+8801[3-9]XXXXXXXX], and yet the phone guard passes both and the
    registrations are accepted. *)
Lemma phone_without_plus_accepted :
  let ph := str "8801711112222" in
  let ph' := str "+881711112222" in
  let p := registration (Some (str "k@example.com")) (Some ph)
             (Some (str "O+")) None in
  let p' := registration (Some (str "k@example.com")) (Some ph')
              (Some (str "O+")) None in
  (~ plus880_shape (strip_spaces ph)
   /\ phone_ok ph = true
   /\ fst (post_donors calm p empty_db)
      = Json 200 (Registered MsgRegistered 1 NidNone))
  /\ (~ plus880_shape (strip_spaces ph')
      /\ phone_ok ph' = true
      /\ fst (post_donors calm p' empty_db)
         = Json 200 (Registered MsgRegistered 1 NidNone)).
Proof.
  cbv zeta. split; (split; [| split]).
  - intros (a & ds & H & _). vm_compute in H. discriminate H.
  - vm_compute. reflexivity.
  - vm_compute. reflexivity.
  - intros (a & ds & H & _). vm_compute in H. discriminate H.
  - vm_compute. reflexivity.
  - vm_compute. reflexivity.
Qed.

(** C4.  Among the requests that reach the NID guard, a supplied,
    non-empty [nidNumber] that is not a string of exactly seventeen digits
    is answered with status 400 and the NID-format message, the store
    unchanged; one of exactly seventeen digits passes the guard, and the
    handler goes on to the donor insert. *)
Theorem nid_check (e : env) (p : Req.payload) (s : db) (ph n : jsstr) :
  missing_required p = false ->
  email_ok p = true ->
  Req.phone p = Some ph ->
  phone_ok ph = true ->
  Req.nidNumber p = Some n ->
  n <> [] ->
  (~ digits 17 n -> post_donors e p s = (Json 400 (Failure MsgNid), s))
  /\ (digits 17 n ->
      nid_bad p = false /\ validate p = None
      /\ post_donors e p s = persist e p s).
Proof.
  intros Hm Hem Hph Hok Hn Hne.
  assert (Ht : truthy (Req.nidNumber p) = true).
  { rewrite Hn. destruct n; [contradiction | reflexivity]. }
  assert (Hbad : nid_bad p = negb (test nidRegex n)).
  { unfold nid_bad. rewrite Ht, Hn. reflexivity. }
  split; intro H.
  - unfold post_donors. rewrite Hm, Hem, Hph, Hok, Hbad. simpl.
    destruct (test nidRegex n) eqn:E; [| reflexivity].
    exfalso. apply H, nidRegex_shape, E.
  - apply nidRegex_shape in H. rewrite H in Hbad. simpl in Hbad.
    split; [exact Hbad | split].
    + unfold validate. rewrite Hm, Hem, Hph. simpl.
      rewrite Hok, Hbad. reflexivity.
    + unfold post_donors. rewrite Hm, Hem, Hph, Hok, Hbad. reflexivity.
Qed.

Lemma nid_check_witness :
  post_donors calm
    (registration (Some (str "k@example.com"))
       (Some (str "+8801711112222")) (Some (str "O+"))
       (Some (str "1234567890"))) empty_db
  = (Json 400 (Failure MsgNid), empty_db).
Proof.
  refine (proj1 (nid_check calm
            (registration (Some (str "k@example.com"))
               (Some (str "+8801711112222")) (Some (str "O+"))
               (Some (str "1234567890")))
            empty_db (ph := str "+8801711112222") (n := str "1234567890")
            _ _ _ _ _ _) _).
  - reflexivity.
  - vm_compute. reflexivity.
  - reflexivity.
  - vm_compute. reflexivity.
  - reflexivity.
  - discriminate.
  - intros [Hl _]. discriminate Hl.
Defined.

End ValidationFacts.

(* ================================================================== *)
(** * Listing donors *)
(* ================================================================== *)

Module ListingFacts.
Import Store Handlers Shapes Samples.

Lemma insert_desc_perm (d : Donor.row) (l : list Donor.row) :
  Permutation (insert_desc d l) (d :: l).
Proof.
  induction l as [| x t IH]; simpl.
  - apply Permutation_refl.
  - destruct (Donor.registrationDate x <=? Donor.registrationDate d)%Z.
    + apply Permutation_refl.
    + eapply perm_trans; [apply perm_skip, IH | apply perm_swap].
Qed.

Lemma order_by_perm (l : list Donor.row) :
  Permutation (order_by_registrationDate_desc l) l.
Proof.
  induction l as [| d t IH]; simpl.
  - constructor.
  - eapply perm_trans; [apply insert_desc_perm | apply perm_skip, IH].
Qed.

Lemma insert_desc_sorted (d : Donor.row) (l : list Donor.row) :
  newest_first l -> newest_first (insert_desc d l).
Proof.
  unfold newest_first. induction l as [| x t IH]; simpl; intro H.
  - repeat constructor.
  - apply StronglySorted_inv in H as [Ht Hx].
    destruct (Donor.registrationDate x <=? Donor.registrationDate d)%Z
      eqn:E.
    + apply Z.leb_le in E. constructor.
      * constructor; assumption.
      * constructor; [exact E |].
        eapply Forall_impl; [| exact Hx]. simpl. intros a Ha. lia.
    + apply Z.leb_gt in E. constructor; [apply IH, Ht |].
      eapply Permutation_Forall.
      * apply Permutation_sym, insert_desc_perm.
      * constructor; [lia | exact Hx].
Qed.

Lemma order_by_sorted (l : list Donor.row) :
  newest_first (order_by_registrationDate_desc l).
Proof.
  induction l as [| d t IH]; simpl.
  - constructor.
  - apply insert_desc_sorted, IH.
Qed.

Section Views.
Variable json : Type.
Variable JSON_parse : jsstr -> option json.
Variable toLocaleDateString : timestamp -> jsstr.

Lemma view_readable (d : Donor.row) :
  readable JSON_parse d ->
  exists v, view JSON_parse toLocaleDateString d = Some v /\ spread v = d.
Proof.
  unfold readable, view. destruct (Donor.nidData d) as [[| c t] |];
    intro H; eauto.
  destruct (JSON_parse (c :: t)) as [j |]; [eauto | contradiction].
Qed.

Lemma map_view_readable (rows : list Donor.row) :
  Forall (readable JSON_parse) rows ->
  exists vs, map_view JSON_parse toLocaleDateString rows = Some vs
             /\ map (@spread json) vs = rows.
Proof.
  induction 1 as [| d t Hd _ (vs & Hvs & Hsp)]; simpl.
  - exists []. auto.
  - destruct (view_readable d Hd) as (v & Hv & Ev).
    rewrite Hv, Hvs. exists (v :: vs). simpl. rewrite Ev, Hsp. auto.
Qed.

End Views.

(** C7.  Whatever the donors table holds (its stored payloads being ones
    [JSON.parse] reads, as every row the server writes is), a listing that
    reads the store answers 200 with one entry per donor row, all rows and
    no other, ordered by registration timestamp, most recent first. *)
Theorem listing_newest_first (json : Type)
    (JSON_parse : jsstr -> option json)
    (toLocaleDateString : timestamp -> jsstr) (s : db) :
  Forall (readable JSON_parse) (donors s) ->
  exists views,
    get_donors JSON_parse toLocaleDateString false s
    = ListJson 200 views (List.length (donors s))
    /\ Permutation (map (@spread json) views) (donors s)
    /\ newest_first (map (@spread json) views).
Proof.
  intro Hr. unfold get_donors, select_donors.
  assert (Hr' : Forall (readable JSON_parse)
                  (order_by_registrationDate_desc (donors s))).
  { eapply Permutation_Forall;
      [apply Permutation_sym, order_by_perm | exact Hr]. }
  destruct (@map_view_readable json JSON_parse toLocaleDateString _ Hr')
    as (vs & Hvs & Hsp).
  rewrite Hvs. exists vs. rewrite Hsp. split; [| split].
  - f_equal. rewrite <- (length_map (@spread json)), Hsp.
    apply Permutation_length, order_by_perm.
  - apply order_by_perm.
  - apply order_by_sorted.
Qed.

Lemma listing_newest_first_witness :
  exists views,
    get_donors (fun _ : jsstr => @None unit) (fun _ : timestamp => [])
      false two_donors
    = ListJson 200 views (List.length (donors two_donors))
    /\ Permutation (map (@spread unit) views) (donors two_donors)
    /\ newest_first (map (@spread unit) views).
Proof.
  apply (@listing_newest_first unit (fun _ : jsstr => None)
           (fun _ : timestamp => []) two_donors).
  vm_compute. repeat constructor.
Defined.

End ListingFacts.

(* ================================================================== *)
(** * The writes of a registration *)
(* ================================================================== *)

Module RegistrationFacts.
Import Store Handlers Shapes Samples ValidationFacts.

Lemma jsstr_eqb_eq (a b : jsstr) : jsstr_eqb a b = true <-> a = b.
Proof.
  revert b. induction a as [| x a IH]; intros [| y b]; simpl;
    split; intro H; try reflexivity; try discriminate.
  - simpl in H. apply andb_true_iff in H as [Hx Hab].
    apply N.eqb_eq in Hx. apply IH in Hab. congruence.
  - inversion H; subst. simpl. rewrite N.eqb_refl. simpl.
    apply IH. reflexivity.
Qed.

Lemma jsstr_eqb_neq (a b : jsstr) : jsstr_eqb a b = false <-> a <> b.
Proof.
  rewrite <- jsstr_eqb_eq. destruct (jsstr_eqb a b); split; intro H;
    try reflexivity; try discriminate; try congruence.
Qed.

Lemma validate_none (p : Req.payload) :
  validate p = None ->
  missing_required p = false /\ email_ok p = true
  /\ phone_ok (ToString (Req.phone p)) = true /\ nid_bad p = false.
Proof.
  unfold validate.
  destruct (missing_required p); [discriminate |].
  destruct (email_ok p); [| discriminate]. simpl.
  destruct (phone_ok _); [| discriminate]. simpl.
  destruct (nid_bad p); [discriminate |]. auto.
Qed.

(** A [NULL] bound to [dob], [address] or [zipCode] aborts the insert. *)
Lemma insert_donor_null (now : timestamp) (fault : bool)
    (ps : donor_params) (s : db) :
  p_dob ps = None \/ p_address ps = None \/ p_zipCode ps = None ->
  insert_donor now fault ps s = None.
Proof.
  intro H. unfold insert_donor. destruct fault; [reflexivity |].
  destruct (p_firstName ps); [| reflexivity].
  destruct (p_lastName ps); [| reflexivity].
  destruct (p_email ps); [| reflexivity].
  destruct (p_phone ps); [| reflexivity].
  destruct (p_dob ps); [| reflexivity].
  destruct (p_bloodType ps); [| reflexivity].
  destruct (p_gender ps); [| reflexivity].
  destruct (p_address ps); [| reflexivity].
  destruct (p_city ps); [| reflexivity].
  destruct (p_zipCode ps); [| reflexivity].
  destruct H as [H | [H | H]]; discriminate H.
Qed.

(** What a successful donor insert leaves. *)
Lemma insert_donor_some (now : timestamp) (fault : bool)
    (ps : donor_params) (s s1 : db) (i : Z) :
  insert_donor now fault ps s = Some (s1, i) ->
  exists r,
    donors s1 = donors s ++ [r]
    /\ admins s1 = admins s
    /\ blood_inventory s1 = blood_inventory s
    /\ i = next_id s /\ Donor.id r = i
    /\ option_map Binding.bound_text (p_bloodType ps)
       = Some (Donor.bloodType r)
    /\ Donor.nidNumber r = option_map Binding.bound_text (p_nidNumber ps)
    /\ Donor.nidVerified r = p_nidVerified ps
    /\ Donor.nidData r = option_map Binding.bound_text (p_nidData ps)
    /\ Donor.registrationDate r = now.
Proof.
  unfold insert_donor. destruct fault; [discriminate |].
  destruct (p_firstName ps); [| discriminate].
  destruct (p_lastName ps); [| discriminate].
  destruct (p_email ps); [| discriminate].
  destruct (p_phone ps); [| discriminate].
  destruct (p_dob ps); [| discriminate].
  destruct (p_bloodType ps); [| discriminate].
  destruct (p_gender ps); [| discriminate].
  destruct (p_address ps); [| discriminate].
  destruct (p_city ps); [| discriminate].
  destruct (p_zipCode ps); [| discriminate].
  intro H. inversion H; subst; clear H. simpl.
  eexists. repeat split.
Qed.

(** With no fault and no [NULL] in a [NOT NULL] column the insert
    succeeds, and takes the next rowid. *)
Lemma insert_donor_succeeds (now : timestamp) (p : Req.payload) (s : db) :
  missing_required p = false ->
  Req.dob p <> None -> Req.address p <> None -> Req.zipCode p <> None ->
  exists s1,
    insert_donor now false (donor_params_of p) s = Some (s1, next_id s).
Proof.
  intros Hm Hd Ha Hz.
  apply missing_required_false in Hm
    as (H1 & H2 & H3 & H4 & H5 & H6 & H7).
  apply truthy_some in H1 as (? & ? & E1), H2 as (? & ? & E2),
    H3 as (? & ? & E3), H4 as (? & ? & E4), H5 as (? & ? & E5),
    H6 as (? & ? & E6), H7 as (? & ? & E7).
  unfold insert_donor, donor_params_of. simpl.
  rewrite E1, E2, E3, E4, E5, E6, E7.
  destruct (Req.dob p); [| contradiction].
  destruct (Req.address p); [| contradiction].
  destruct (Req.zipCode p); [| contradiction].
  eexists. reflexivity.
Qed.

Lemma bump_bumped (now : timestamp) (t : jsstr) (r : Inventory.row) :
  bumped now t r (bump now t r).
Proof.
  unfold bumped, bump.
  destruct (jsstr_eqb (Inventory.bloodType r) t) eqn:E; simpl.
  - apply jsstr_eqb_eq in E. repeat split; auto. congruence.
  - apply jsstr_eqb_neq in E. repeat split; auto; contradiction.
Qed.

Lemma map_bump_bumped (now : timestamp) (t : jsstr)
    (l : list Inventory.row) :
  Forall2 (bumped now t) l (map (bump now t) l).
Proof.
  induction l as [| r l IH]; simpl; constructor;
    [apply bump_bumped | exact IH].
Qed.

Lemma map_bump_types (now : timestamp) (t : jsstr)
    (l : list Inventory.row) :
  map Inventory.bloodType (map (bump now t) l) = map Inventory.bloodType l.
Proof.
  induction l as [| r l IH]; simpl; [reflexivity |].
  rewrite IH. f_equal. apply (bump_bumped now t r).
Qed.

(** An [UPDATE] whose [WHERE] matches no row changes none. *)
Lemma map_bump_none (now : timestamp) (t : jsstr)
    (l : list Inventory.row) :
  ~ In t (map Inventory.bloodType l) -> map (bump now t) l = l.
Proof.
  induction l as [| r l IH]; simpl; intro H; [reflexivity |].
  rewrite IH by tauto. f_equal. unfold bump.
  destruct (jsstr_eqb (Inventory.bloodType r) t) eqn:E; [| reflexivity].
  apply jsstr_eqb_eq in E. tauto.
Qed.

(** C10.  A registration that passes the four guards but omits [dob],
    [address] or [zipCode] binds [NULL] to a [NOT NULL] column: the insert
    fails, the answer is status 500 with the store-error message, not a
    400, and the store is unchanged, so no donor row is persisted. *)
Theorem omitted_column_store_error (e : env) (p : Req.payload) (s : db) :
  validate p = None ->
  Req.dob p = None \/ Req.address p = None \/ Req.zipCode p = None ->
  insert_donor (t_insert e) (insert_fault e) (donor_params_of p) s = None
  /\ post_donors e p s = (Json 500 (Failure MsgStoreError), s)
  /\ donors (snd (post_donors e p s)) = donors s.
Proof.
  intros Hv Ho.
  assert (Hi : insert_donor (t_insert e) (insert_fault e)
                 (donor_params_of p) s = None).
  { apply insert_donor_null. exact Ho. }
  assert (Hp : post_donors e p s = (Json 500 (Failure MsgStoreError), s)).
  { rewrite post_donors_validate, Hv. unfold persist. rewrite Hi.
    reflexivity. }
  rewrite Hp. auto.
Qed.

(** C1.  When a registration of blood type [T] passes validation and its
    donor insert succeeds, the handler answers 200 and issues the
    inventory update; once that write has run, every [blood_inventory] row
    whose type is the blood type of the registered donor has its units
    raised by exactly 1 and its [lastUpdated] set to the time of the
    write, and every other row is as before.  The registered donor's blood
    type is [T] as the binding stores it, which is [T] itself unless [T]
    holds an unpaired surrogate. *)
Theorem registration_counts_unit (e : env) (p : Req.payload) (s s1 : db)
    (T : jsstr) (lastID : Z) :
  validate p = None ->
  Req.bloodType p = Some T ->
  insert_donor (t_insert e) (insert_fault e) (donor_params_of p) s
  = Some (s1, lastID) ->
  update_fault e = false ->
  fst (post_donors e p s)
  = Json 200 (Registered MsgRegistered lastID
                (if truthy (Req.nidNumber p) then NidPending else NidNone))
  /\ donors (snd (post_donors e p s)) = donors s1
  /\ (exists r,
        donors s1 = donors s ++ [r]
        /\ Donor.bloodType r = Binding.bound_text T
        /\ Forall2 (bumped (t_update e) (Donor.bloodType r))
             (blood_inventory s)
             (blood_inventory (snd (post_donors e p s))))
  /\ (Binding.bound_text T = T ->
      Forall2 (bumped (t_update e) T)
        (blood_inventory s) (blood_inventory (snd (post_donors e p s)))).
Proof.
  intros Hv HT Hi Hu.
  rewrite post_donors_validate, Hv. unfold persist.
  rewrite Hi. unfold update_inventory. rewrite Hu, HT. simpl.
  apply insert_donor_some in Hi as (r & Hd & _ & -> & _ & _ & Hb & _).
  simpl in Hb. rewrite HT in Hb. simpl in Hb. injection Hb as Hb'.
  split; [reflexivity | split; [reflexivity | split]].
  - exists r. split; [exact Hd | split; [symmetry; exact Hb' |]].
    rewrite <- Hb'. apply map_bump_bumped.
  - intro HTT. rewrite HTT. apply map_bump_bumped.
Qed.

(** The store after a registration: untouched, or one more donor row,
    unverified, and the inventory rows updated in place. *)
Lemma post_donors_store (e : env) (p : Req.payload) (s : db) :
  post_donors e p s = (Json 500 (Failure MsgStoreError), s)
  \/ (exists m, post_donors e p s = (Json 400 (Failure m), s))
  \/ (exists r,
        fst (post_donors e p s)
        = Json 200 (Registered MsgRegistered (Donor.id r)
             (if truthy (Req.nidNumber p) then NidPending else NidNone))
        /\ donors (snd (post_donors e p s)) = donors s ++ [r]
        /\ unverified r
        /\ Donor.nidNumber r
           = option_map Binding.bound_text (Req.nidNumber p)
        /\ option_map Binding.bound_text (Req.bloodType p)
           = Some (Donor.bloodType r)
        /\ admins (snd (post_donors e p s)) = admins s
        /\ map Inventory.bloodType
             (blood_inventory (snd (post_donors e p s)))
           = map Inventory.bloodType (blood_inventory s)).
Proof.
  rewrite post_donors_validate.
  destruct (validate p) as [m |]; [right; left; eauto |].
  unfold persist.
  destruct (insert_donor _ _ _ s) as [[s1 i] |] eqn:Hi; [| left; reflexivity].
  right; right.
  apply insert_donor_some in Hi
    as (r & Hd & Ha & Hb & _ & Hid & Hbt & Hn & Hv & Hj & _).
  exists r. subst i. simpl in Hbt, Hn, Hv, Hj.
  assert (Hv0 : Donor.nidVerified r = 0%Z).
  { rewrite Hv. destruct (truthy (Req.nidNumber p)); reflexivity. }
  unfold update_inventory. destruct (update_fault e); simpl;
    rewrite ?map_bump_types, ?Hb; repeat split; auto.
Qed.

Lemma omitted_column_store_error_witness :
  post_donors calm karim_short first_boot
  = (Json 500 (Failure MsgStoreError), first_boot).
Proof.
  refine (proj1 (proj2
            (@omitted_column_store_error calm karim_short first_boot _ _))).
  - vm_compute. reflexivity.
  - left. reflexivity.
Defined.

Lemma registration_counts_unit_witness :
  Forall2 (bumped (t_update calm) (str "O+"))
    (blood_inventory first_boot)
    (blood_inventory (snd (post_donors calm karim first_boot))).
Proof.
  refine (proj2 (proj2 (proj2
            (@registration_counts_unit calm karim first_boot _
               (str "O+") 1%Z _ _ _ _))) _).
  - vm_compute. reflexivity.
  - reflexivity.
  - vm_compute. reflexivity.
  - reflexivity.
  - reflexivity.
Defined.

End RegistrationFacts.

(* ================================================================== *)
(** * Start-up and the reachable stores *)
(* ================================================================== *)

Module ServerFacts.
Import Store Handlers Shapes Startup Server Samples.
Import ValidationFacts RegistrationFacts.

Lemma startup_donors (now : timestamp) (s : db) :
  donors (startup now s) = donors s.
Proof.
  assert (F : forall l s0,
             donors (fold_left (insert_or_ignore_inventory now) l s0)
             = donors s0).
  { induction l as [| t l IH]; intro s0; simpl; [reflexivity |].
    rewrite IH. unfold insert_or_ignore_inventory.
    destruct (existsb _ _); reflexivity. }
  unfold startup, insert_admin.
  destruct (select_admin _ s); [apply F |].
  destruct (existsb _ _); [apply F |].
  cbn [donors]. apply F.
Qed.

Lemma existsb_bloodType (t : jsstr) (l : list Inventory.row) :
  In t (map Inventory.bloodType l) ->
  existsb (fun r => jsstr_eqb (Inventory.bloodType r) t) l = true.
Proof.
  intro H. apply in_map_iff in H as (r & Hr & Hin).
  apply existsb_exists. exists r. split; [exact Hin |].
  apply jsstr_eqb_eq. exact Hr.
Qed.

(** Seeding types that are all present changes nothing. *)
Lemma seed_present (now : timestamp) (l : list jsstr) (s : db) :
  incl l (map Inventory.bloodType (blood_inventory s)) ->
  fold_left (insert_or_ignore_inventory now) l s = s.
Proof.
  induction l as [| t l IH]; simpl; intro H; [reflexivity |].
  assert (E : insert_or_ignore_inventory now s t = s).
  { unfold insert_or_ignore_inventory.
    rewrite existsb_bloodType; [reflexivity |]. apply H. left. reflexivity. }
  rewrite E. apply IH. intros x Hx. apply H. right. exact Hx.
Qed.

Lemma startup_unseeded (now : timestamp) (s : db) :
  unseeded s -> seeded (startup now s).
Proof.
  destruct s as [ds q ad inv]. unfold unseeded. simpl.
  intros [-> ->]. split; [exists now |]; reflexivity.
Qed.

Lemma startup_seeded (now : timestamp) (s : db) :
  seeded s -> startup now s = s.
Proof.
  intros [[t Ha] Hb]. unfold startup.
  rewrite seed_present by (rewrite Hb; apply incl_refl).
  unfold select_admin. rewrite Ha. reflexivity.
Qed.

(** A reachable store is either not seeded yet or seeded. *)
Lemma reachable_seeding (s : db) :
  reachable s -> unseeded s \/ seeded s.
Proof.
  induction 1 as [| ev s Hs IH].
  - left. split; reflexivity.
  - destruct ev as [now | fault | e p]; simpl.
    + right. destruct IH as [Hu | Hd].
      * apply startup_unseeded, Hu.
      * rewrite (startup_seeded now Hd). exact Hd.
    + exact IH.
    + destruct (post_donors_store e p s)
        as [E | [[m E] | (r & _ & _ & _ & _ & _ & Ha & Hb)]];
        try (rewrite E; exact IH).
      destruct IH as [[Hu1 Hu2] | [[t Hd1] Hd2]].
      * left. split; [congruence |].
        rewrite Hu2 in Hb. simpl in Hb.
        apply map_eq_nil in Hb. exact Hb.
      * right. split; [exists t |]; congruence.
Qed.

Lemma reachable_types (s : db) (bt : jsstr) :
  reachable s -> ~ In bt bloodTypes ->
  ~ In bt (map Inventory.bloodType (blood_inventory s)).
Proof.
  intros Hs Hbt. destruct (reachable_seeding Hs) as [[_ Hu] | [_ Hd]].
  - rewrite Hu. simpl. tauto.
  - rewrite Hd. exact Hbt.
Qed.

Lemma reachable_unverified (s : db) :
  reachable s -> Forall unverified (donors s).
Proof.
  induction 1 as [| ev s Hs IH].
  - constructor.
  - destruct ev as [now | fault | e p]; simpl.
    + rewrite startup_donors. exact IH.
    + exact IH.
    + destruct (post_donors_store e p s)
        as [E | [[m E] | (r & _ & Hd & Hr & _)]];
        try (rewrite E; exact IH).
      rewrite Hd. apply Forall_app. split; [exact IH |].
      constructor; [exact Hr | constructor].
Qed.

(** C8.  From any store the server can reach, two runs of the start-up
    leave what one run leaves: exactly one admin row, the seeded default,
    and exactly eight [blood_inventory] rows, one per canonical blood
    type. *)
Theorem startup_twice (s : db) (t1 t2 : timestamp) :
  reachable s ->
  startup t2 (startup t1 s) = startup t1 s
  /\ (exists t, admins (startup t2 (startup t1 s)) = [admin_row t])
  /\ map Inventory.bloodType (blood_inventory (startup t2 (startup t1 s)))
     = bloodTypes
  /\ List.length (blood_inventory (startup t2 (startup t1 s))) = 8
  /\ NoDup bloodTypes.
Proof.
  intro Hs.
  assert (Hd : seeded (startup t1 s)).
  { destruct (reachable_seeding Hs) as [Hu | Hd].
    - apply startup_unseeded, Hu.
    - rewrite (startup_seeded t1 Hd). exact Hd. }
  rewrite (startup_seeded t2 Hd).
  destruct Hd as [Ha Hb].
  split; [reflexivity | split; [exact Ha | split; [exact Hb | split]]].
  - rewrite <- (length_map Inventory.bloodType), Hb. reflexivity.
  - unfold bloodTypes. simpl.
    repeat (constructor;
            [simpl; intro H;
             repeat (destruct H as [H | H]; [discriminate H |]);
             exact H |]).
    constructor.
Qed.

Lemma validate_with_bloodType (p : Req.payload) (bt bt' : jsstr) :
  Req.bloodType p = Some bt -> bt <> [] -> bt' <> [] ->
  validate (with_bloodType bt' p) = validate p.
Proof.
  intros Hp Hbt Hbt'.
  unfold validate, missing_required, email_ok, nid_bad. simpl.
  rewrite Hp. destruct bt; [contradiction |].
  destruct bt'; [contradiction |]. reflexivity.
Qed.

Lemma canonical_types_plain (t : jsstr) :
  In t bloodTypes -> Forall (fun c => (c < 55296)%N) t.
Proof.
  unfold bloodTypes. simpl. intro H.
  repeat (destruct H as [<- | H];
          [repeat (constructor; [reflexivity |]); constructor |]).
  contradiction.
Qed.

(** The binding makes no string a canonical blood type that was not one. *)
Lemma bound_text_unlisted (bt : jsstr) :
  ~ In bt bloodTypes -> ~ In (Binding.bound_text bt) bloodTypes.
Proof.
  intros Hbt Hin. apply Hbt.
  rewrite <- (BindingFacts.bound_text_below bt); [exact Hin |].
  apply canonical_types_plain, Hin.
Qed.

(** A validated registration with its three further columns supplied and
    no insert fault appends its row. *)
Lemma registration_inserts (e : env) (p : Req.payload) (s : db) :
  validate p = None ->
  Req.dob p <> None -> Req.address p <> None -> Req.zipCode p <> None ->
  insert_fault e = false ->
  exists r,
    fst (post_donors e p s)
    = Json 200 (Registered MsgRegistered (Donor.id r)
         (if truthy (Req.nidNumber p) then NidPending else NidNone))
    /\ donors (snd (post_donors e p s)) = donors s ++ [r]
    /\ unverified r
    /\ Donor.nidNumber r = option_map Binding.bound_text (Req.nidNumber p)
    /\ option_map Binding.bound_text (Req.bloodType p)
       = Some (Donor.bloodType r).
Proof.
  intros Hv Hd Ha Hz Hf.
  destruct (post_donors_store e p s)
    as [E | [[m E] | (r & Hr & Hdn & Hu & Hn & Hb & _)]].
  - exfalso. rewrite post_donors_validate, Hv in E. unfold persist in E.
    destruct (validate_none p Hv) as (Hm & _).
    destruct (@insert_donor_succeeds (t_insert e) p s Hm Hd Ha Hz)
      as (s1 & Hi).
    rewrite Hf, Hi in E. discriminate E.
  - exfalso. rewrite post_donors_validate, Hv in E.
    apply (f_equal fst) in E. exact (persist_status e p s E).
  - exists r. auto.
Qed.

(** C9, as the code has it.  The blood type is never checked against the
    eight canonical ones.  A registration that is valid with a canonical
    type is as valid with any other non-empty string in its place; with
    [dob], [address] and [zipCode] given and no store fault a donor row is
    inserted and the answer is the success response, while the inventory
    update matches no row and leaves [blood_inventory] as it was.  The
    row's blood type is that string as the binding stores it: the string
    itself, unless it holds an unpaired surrogate. *)
Theorem unlisted_blood_type_accepted (e : env) (p : Req.payload) (s : db)
    (bt : jsstr) :
  reachable s ->
  Req.bloodType p = Some bt ->
  bt <> [] ->
  ~ In bt bloodTypes ->
  validate (with_bloodType (str "O+") p) = None ->
  Req.dob p <> None -> Req.address p <> None -> Req.zipCode p <> None ->
  insert_fault e = false ->
  validate p = None
  /\ (exists r,
        fst (post_donors e p s)
        = Json 200 (Registered MsgRegistered (Donor.id r)
             (if truthy (Req.nidNumber p) then NidPending else NidNone))
        /\ donors (snd (post_donors e p s)) = donors s ++ [r]
        /\ Donor.bloodType r = Binding.bound_text bt
        /\ Donor.bloodType r <> []
        /\ ~ In (Donor.bloodType r) bloodTypes
        /\ (Forall (fun c => Binding.surrogate c = false) bt ->
            Donor.bloodType r = bt))
  /\ filter (fun r => jsstr_eqb (Inventory.bloodType r)
                        (Binding.bound_text bt))
       (blood_inventory s) = []
  /\ blood_inventory (snd (post_donors e p s)) = blood_inventory s.
Proof.
  intros Hs Hp Hne Hbt Hv Hd Ha Hz Hf.
  rewrite (validate_with_bloodType p Hp Hne) in Hv by discriminate.
  pose proof (bound_text_unlisted Hbt) as Hbt'.
  pose proof (reachable_types Hs Hbt') as Hno.
  split; [exact Hv | split; [| split]].
  - destruct (@registration_inserts e p s Hv Hd Ha Hz Hf)
      as (r & Hr & Hdn & _ & _ & Hb).
    rewrite Hp in Hb. simpl in Hb. injection Hb as Hb.
    exists r. rewrite <- Hb.
    split; [exact Hr | split; [exact Hdn | split; [reflexivity |]]].
    split; [apply BindingFacts.bound_text_nonempty, Hne |].
    split; [exact Hbt' |].
    apply BindingFacts.bound_text_same.
  - induction (blood_inventory s) as [| x l IH]; simpl; [reflexivity |].
    simpl in Hno.
    destruct (jsstr_eqb (Inventory.bloodType x) (Binding.bound_text bt))
      eqn:E.
    + apply jsstr_eqb_eq in E. tauto.
    + apply IH. tauto.
  - rewrite post_donors_validate, Hv. unfold persist.
    destruct (insert_donor _ _ _ s) as [[s1 i] |] eqn:Hi; [| reflexivity].
    apply insert_donor_some in Hi as (r & _ & _ & Hb & _).
    unfold update_inventory. destruct (update_fault e); simpl;
      [exact Hb |].
    rewrite Hp. simpl. rewrite Hb. apply map_bump_none. exact Hno.
Qed.

(** C9 as stated fails.  A registration whose blood type is the single
    code unit U+D800, an unpaired surrogate, is non-empty and not one of
    the eight canonical types; it passes validation and its row is
    inserted, but the row's blood type is U+FFFD, not that string. *)
Lemma unpaired_surrogate_not_stored :
  let bt := [55296%N] in
  let p := registration (Some (str "k@example.com"))
             (Some (str "+8801711112222")) (Some bt) None in
  bt <> []
  /\ ~ In bt bloodTypes
  /\ validate p = None
  /\ exists r,
       fst (post_donors calm p first_boot)
       = Json 200 (Registered MsgRegistered 1 NidNone)
       /\ donors (snd (post_donors calm p first_boot)) = [r]
       /\ Donor.bloodType r = [65533%N]
       /\ Donor.bloodType r <> bt.
Proof.
  cbv zeta. split; [discriminate | split; [| split]].
  - simpl. intro H.
    repeat (destruct H as [H | H]; [discriminate H |]). exact H.
  - vm_compute. reflexivity.
  - eexists. split; [vm_compute; reflexivity |].
    split; [vm_compute; reflexivity |].
    split; [reflexivity | discriminate].
Qed.

(** C5.  Whether or not a national ID is supplied, a registration that
    passes validation binds 0 to [nidVerified] and [NULL] to [nidData].
    When [dob], [address] and [zipCode] are supplied and the store does
    not fail, its donor row is inserted, and carries exactly those two
    values beside the national ID; otherwise the insert fails and the
    store is unchanged.  Every donor row of every store the server can
    reach has them: nothing sets them otherwise. *)
Theorem nid_fields_never_set (e : env) (p : Req.payload) (s : db) :
  reachable s ->
  validate p = None ->
  p_nidVerified (donor_params_of p) = 0%Z
  /\ p_nidData (donor_params_of p) = None
  /\ (Req.dob p <> None -> Req.address p <> None ->
      Req.zipCode p <> None -> insert_fault e = false ->
      exists r,
        fst (post_donors e p s)
        = Json 200 (Registered MsgRegistered (Donor.id r)
             (if truthy (Req.nidNumber p) then NidPending else NidNone))
        /\ donors (snd (post_donors e p s)) = donors s ++ [r]
        /\ Donor.nidNumber r
           = option_map Binding.bound_text (Req.nidNumber p)
        /\ Donor.nidVerified r = 0%Z /\ Donor.nidData r = None)
  /\ (Req.dob p = None \/ Req.address p = None \/ Req.zipCode p = None
      \/ insert_fault e = true ->
      post_donors e p s = (Json 500 (Failure MsgStoreError), s))
  /\ Forall unverified (donors s)
  /\ Forall unverified (donors (snd (post_donors e p s))).
Proof.
  intros Hs Hv. split; [| split; [| split; [| split; [| split]]]].
  - simpl. destruct (truthy (Req.nidNumber p)); reflexivity.
  - reflexivity.
  - intros Hd Ha Hz Hf.
    destruct (@registration_inserts e p s Hv Hd Ha Hz Hf)
      as (r & Hr & Hdn & [Hu1 Hu2] & Hn & _).
    exists r. auto.
  - intro H. rewrite post_donors_validate, Hv. unfold persist.
    assert (Hi : insert_donor (t_insert e) (insert_fault e)
                   (donor_params_of p) s = None).
    { destruct H as [H | [H | [H | H]]];
        try (apply insert_donor_null; simpl; tauto).
      rewrite H. reflexivity. }
    rewrite Hi. reflexivity.
  - apply reachable_unverified, Hs.
  - apply (reachable_unverified (reach_step (EvRegister e p) Hs)).
Qed.

Lemma startup_twice_witness :
  startup 1700000500%Z (startup 1700000000%Z empty_db)
  = startup 1700000000%Z empty_db.
Proof.
  exact (proj1 (@startup_twice empty_db 1700000000%Z 1700000500%Z reach_new)).
Defined.

Lemma unlisted_blood_type_accepted_witness :
  blood_inventory (snd (post_donors calm karim_unlisted first_boot))
  = blood_inventory first_boot.
Proof.
  refine (proj2 (proj2 (proj2
            (@unlisted_blood_type_accepted calm karim_unlisted
               first_boot (str "C+") _ _ _ _ _ _ _ _ _)))).
  - exact (reach_step (EvStartup 1699990000%Z) reach_new).
  - reflexivity.
  - discriminate.
  - simpl. intro H.
    repeat (destruct H as [H | H]; [discriminate H |]). exact H.
  - vm_compute. reflexivity.
  - discriminate.
  - discriminate.
  - discriminate.
  - reflexivity.
Defined.

Lemma nid_fields_never_set_witness :
  exists r,
    fst (post_donors calm karim_with_nid first_boot)
    = Json 200 (Registered MsgRegistered (Donor.id r)
         (if truthy (Req.nidNumber karim_with_nid)
          then NidPending else NidNone))
    /\ donors (snd (post_donors calm karim_with_nid first_boot))
       = donors first_boot ++ [r]
    /\ Donor.nidNumber r
       = option_map Binding.bound_text (Req.nidNumber karim_with_nid)
    /\ Donor.nidVerified r = 0%Z /\ Donor.nidData r = None.
Proof.
  refine (proj1 (proj2 (proj2
            (@nid_fields_never_set calm karim_with_nid first_boot _ _)))
            _ _ _ _).
  - exact (reach_step (EvStartup 1699990000%Z) reach_new).
  - vm_compute. reflexivity.
  - discriminate.
  - discriminate.
  - discriminate.
  - reflexivity.
Defined.

End ServerFacts.

(* ================================================================== *)
(** * More on start-up *)
(* ================================================================== *)

Module StartupProps.
Import Store Handlers Shapes Startup Server Samples Invariants.
Import RegistrationFacts ServerFacts.

Lemma find_existsb (A : Type) (f : A -> bool) (l : list A) :
  find f l = None <-> existsb f l = false.
Proof.
  induction l as [| a l IH]; simpl; [tauto |].
  destruct (f a); simpl; [split; discriminate | exact IH].
Qed.

Lemma find_app_last (A : Type) (f : A -> bool) (l : list A) (a : A) :
  find f l = None -> f a = true -> find f (l ++ [a]) = Some a.
Proof.
  induction l as [| x l IH]; simpl; intros Hl Ha.
  - rewrite Ha. reflexivity.
  - destruct (f x); [discriminate | auto].
Qed.

Lemma existsb_bloodType_false (t : jsstr) (l : list Inventory.row) :
  existsb (fun r => jsstr_eqb (Inventory.bloodType r) t) l = false ->
  ~ In t (map Inventory.bloodType l).
Proof.
  intros H Hin. rewrite (existsb_bloodType t l Hin) in H. discriminate.
Qed.

(** What the eight [INSERT OR IGNORE] make of a store. *)
Lemma seed_fold (now : timestamp) (l : list jsstr) (s : db) :
  donors (fold_left (insert_or_ignore_inventory now) l s) = donors s
  /\ donors_seq (fold_left (insert_or_ignore_inventory now) l s)
     = donors_seq s
  /\ admins (fold_left (insert_or_ignore_inventory now) l s) = admins s
  /\ exists added,
       blood_inventory (fold_left (insert_or_ignore_inventory now) l s)
       = blood_inventory s ++ added
       /\ Forall (fun r => Inventory.units r = 0%Z
                           /\ Inventory.lastUpdated r = now
                           /\ In (Inventory.bloodType r) l
                           /\ ~ In (Inventory.bloodType r)
                                (inventory_types s)) added
       /\ incl l (inventory_types
                    (fold_left (insert_or_ignore_inventory now) l s))
       /\ (NoDup (inventory_types s) ->
           NoDup (inventory_types
                    (fold_left (insert_or_ignore_inventory now) l s))).
Proof.
  revert s. induction l as [| t l IH]; intro s; simpl.
  - repeat split; auto. exists []. rewrite app_nil_r.
    repeat split; auto. intros x [].
  - destruct (IH (insert_or_ignore_inventory now s t))
      as (Hd & Hq & Ha & added & Hinv & Hadd & Hincl & Hnd).
    assert (Hone :
      donors (insert_or_ignore_inventory now s t) = donors s
      /\ donors_seq (insert_or_ignore_inventory now s t) = donors_seq s
      /\ admins (insert_or_ignore_inventory now s t) = admins s
      /\ exists a1,
           blood_inventory (insert_or_ignore_inventory now s t)
           = blood_inventory s ++ a1
           /\ Forall (fun r => Inventory.units r = 0%Z
                               /\ Inventory.lastUpdated r = now
                               /\ Inventory.bloodType r = t
                               /\ ~ In t (inventory_types s)) a1
           /\ In t (inventory_types (insert_or_ignore_inventory now s t))
           /\ (NoDup (inventory_types s) ->
               NoDup (inventory_types
                        (insert_or_ignore_inventory now s t)))).
    { unfold insert_or_ignore_inventory, inventory_types.
      destruct (existsb _ (blood_inventory s)) eqn:E.
      - repeat split; auto. exists []. rewrite app_nil_r.
        repeat split; auto.
        apply existsb_exists in E as (r & Hr & Er).
        apply jsstr_eqb_eq in Er. apply in_map_iff. eauto.
      - apply existsb_bloodType_false in E. simpl.
        repeat split; auto. eexists. split; [reflexivity |].
        rewrite map_app. simpl. repeat split; auto.
        + apply in_or_app. right. left. reflexivity.
        + intro Hn. apply NoDup_app_remove_l with (l := []).
          simpl. apply Permutation_NoDup
                   with (l := t :: map Inventory.bloodType
                                     (blood_inventory s)).
          * apply Permutation_cons_append.
          * constructor; assumption. }
    destruct Hone as (Hd1 & Hq1 & Ha1 & a1 & Hinv1 & Hadd1 & Hin1 & Hnd1).
    assert (Hsub : incl (inventory_types s)
                     (inventory_types (insert_or_ignore_inventory now s t))).
    { unfold inventory_types. rewrite Hinv1, map_app.
      apply incl_appl, incl_refl. }
    repeat split; try congruence.
    exists (a1 ++ added). rewrite Hinv, Hinv1, app_assoc.
    split; [reflexivity | split; [| split]].
    + apply Forall_app. split.
      * eapply Forall_impl; [| exact Hadd1]. simpl.
        intros r (H0 & Ht & Hr & Hn). rewrite Hr. auto.
      * eapply Forall_impl; [| exact Hadd]. simpl.
        intros r (H0 & Ht & Hr & Hn).
        repeat split; auto.
    + intros x [<- | Hx].
      * unfold inventory_types in *. rewrite Hinv, map_app.
        apply in_or_app. left. exact Hin1.
      * apply Hincl, Hx.
    + intro Hn. apply Hnd, Hnd1, Hn.
Qed.

(** The tables after a start-up run, column by column; [l] stands for
    the list of blood types. *)
Lemma seeding_fields (now : timestamp) (l : list jsstr) (s : db) :
  let s1 := fold_left (insert_or_ignore_inventory now) l s in
  let s' :=
    match select_admin (username defaultAdmin) s with
    | Some _ => s1
    | None =>
        match insert_admin now (username defaultAdmin)
                (password defaultAdmin) (email defaultAdmin)
                (Some (name defaultAdmin)) s1 with
        | Some s2 => s2
        | None => s1
        end
    end in
  donors s' = donors s
  /\ donors_seq s' = donors_seq s
  /\ admins s'
     = match select_admin (username defaultAdmin) s with
       | Some _ => admins s
       | None => admins s ++ [admin_row now]
       end
  /\ blood_inventory s' = blood_inventory s1.
Proof.
  intros s1 s'. subst s'.
  destruct (seed_fold now l s) as (Hd & Hq & Ha & _).
  fold s1 in Hd, Hq, Ha.
  destruct (select_admin (username defaultAdmin) s) as [a |] eqn:E.
  - auto.
  - unfold insert_admin. unfold select_admin in E.
    apply find_existsb in E. rewrite Ha, E.
    cbn [donors donors_seq admins blood_inventory]. auto.
Qed.

Lemma startup_fields (now : timestamp) (s : db) :
  donors (startup now s) = donors s
  /\ donors_seq (startup now s) = donors_seq s
  /\ admins (startup now s)
     = match select_admin (username defaultAdmin) s with
       | Some _ => admins s
       | None => admins s ++ [admin_row now]
       end
  /\ blood_inventory (startup now s)
     = blood_inventory
         (fold_left (insert_or_ignore_inventory now) bloodTypes s).
Proof. exact (seeding_fields now bloodTypes s). Qed.

Lemma startup_types (now : timestamp) (s : db) :
  inventory_types (startup now s)
  = inventory_types
      (fold_left (insert_or_ignore_inventory now) bloodTypes s).
Proof.
  unfold inventory_types.
  destruct (startup_fields now s) as (_ & _ & _ & ->). reflexivity.
Qed.

Lemma startup_finds_admin (now : timestamp) (s : db) :
  exists a, select_admin (username defaultAdmin) (startup now s) = Some a
            /\ Admin.username a = username defaultAdmin.
Proof.
  assert (Hf : forall l a,
             find (fun x => jsstr_eqb (Admin.username x)
                              (username defaultAdmin)) l = Some a ->
             Admin.username a = username defaultAdmin).
  { intros l a H. apply find_some in H as [_ H].
    apply jsstr_eqb_eq. exact H. }
  destruct (startup_fields now s) as (_ & _ & Ha & _).
  unfold select_admin in *. rewrite Ha.
  destruct (find _ (admins s)) as [a |] eqn:E.
  - exists a. split; [exact E | exact (Hf _ _ E)].
  - exists (admin_row now).
    split; [apply find_app_last; [exact E |] |]; reflexivity.
Qed.

(** X1.  Start-up is idempotent on every store, seeded by this server or
    not: a second run changes nothing. *)
Theorem startup_idempotent (s : db) (t1 t2 : timestamp) :
  startup t2 (startup t1 s) = startup t1 s.
Proof.
  assert (Htypes : incl bloodTypes
                     (map Inventory.bloodType
                        (blood_inventory (startup t1 s)))).
  { destruct (seed_fold t1 bloodTypes s)
      as (_ & _ & _ & added & _ & _ & Hincl & _).
    fold (inventory_types (startup t1 s)). rewrite startup_types.
    exact Hincl. }
  destruct (startup_finds_admin t1 s) as (a & Hadmin & _).
  generalize dependent (startup t1 s). intros s1 Htypes Hadmin.
  unfold startup.
  rewrite (@seed_present t2 bloodTypes s1 Htypes), Hadmin. reflexivity.
Qed.

(** X2.  Start-up only adds.  Donor rows, the rows of [admins] and the
    rows of [blood_inventory] with their unit counts stay as they are; the
    default account is appended only when no account [admin] exists, and
    every inventory row appended is a canonical type that was missing,
    with 0 units. *)
Theorem startup_only_adds (s : db) (now : timestamp) :
  donors (startup now s) = donors s
  /\ donors_seq (startup now s) = donors_seq s
  /\ admins (startup now s)
     = match select_admin (username defaultAdmin) s with
       | Some _ => admins s
       | None => admins s ++ [admin_row now]
       end
  /\ exists added,
       blood_inventory (startup now s) = blood_inventory s ++ added
       /\ Forall (fun r => Inventory.units r = 0%Z
                           /\ Inventory.lastUpdated r = now
                           /\ In (Inventory.bloodType r) bloodTypes
                           /\ ~ In (Inventory.bloodType r)
                                (inventory_types s)) added.
Proof.
  destruct (seed_fold now bloodTypes s)
    as (_ & _ & _ & added & Hinv & Hadd & _ & _).
  destruct (startup_fields now s) as (Hd & Hq & Ha & Hb).
  repeat split; try assumption.
  exists added. split; [congruence | exact Hadd].
Qed.

(** X3.  After start-up, on every store, each of the eight canonical blood
    types has an inventory row and an account named [admin] exists. *)
Theorem startup_seeds_everything (s : db) (now : timestamp) :
  incl bloodTypes (inventory_types (startup now s))
  /\ exists a, select_admin (username defaultAdmin) (startup now s) = Some a
               /\ Admin.username a = username defaultAdmin.
Proof.
  split; [| apply startup_finds_admin].
  destruct (seed_fold now bloodTypes s)
    as (_ & _ & _ & added & _ & _ & Hincl & _).
  rewrite startup_types. exact Hincl.
Qed.

Lemma startup_only_adds_fields (s : db) (now : timestamp) :
  donors (startup now s) = donors s
  /\ donors_seq (startup now s) = donors_seq s.
Proof.
  destruct (startup_fields now s) as (Hd & Hq & _). auto.
Qed.

Lemma startup_inventory (s : db) (now : timestamp) :
  exists added,
    blood_inventory (startup now s) = blood_inventory s ++ added
    /\ Forall (fun r => Inventory.units r = 0%Z) added.
Proof.
  destruct (seed_fold now bloodTypes s)
    as (_ & _ & _ & added & Hinv & Hadd & _).
  destruct (startup_fields now s) as (_ & _ & _ & Hb).
  exists added. split; [congruence |].
  eapply Forall_impl; [| exact Hadd]. simpl. tauto.
Qed.

(** Start-up keeps the two [UNIQUE] columns duplicate-free. *)
Lemma startup_unique (s : db) (now : timestamp) :
  NoDup (inventory_types s) -> NoDup (admin_names s) ->
  NoDup (inventory_types (startup now s))
  /\ NoDup (admin_names (startup now s)).
Proof.
  intros Ht Ha.
  destruct (seed_fold now bloodTypes s) as (_ & _ & _ & added & _ & _ & _ & Hnd).
  destruct (startup_fields now s) as (_ & _ & Hadm & _).
  split; [rewrite startup_types; exact (Hnd Ht) |].
  unfold admin_names in *. rewrite Hadm.
  destruct (select_admin (username defaultAdmin) s) as [a |] eqn:E;
    [exact Ha |].
  rewrite map_app. cbn [map].
  apply NoDup_app_remove_l with (l := []). cbn [app].
  apply Permutation_NoDup
    with (l := Admin.username (admin_row now)
               :: map Admin.username (admins s)).
  - apply Permutation_cons_append.
  - constructor; [| exact Ha].
    intro Hin. apply in_map_iff in Hin as (x & Hu & Hin).
    unfold select_admin in E. apply (find_none _ _ E) in Hin.
    apply jsstr_eqb_neq in Hin. apply Hin. exact Hu.
Qed.

End StartupProps.

(* ================================================================== *)
(** * More on a registration *)
(* ================================================================== *)

Module RegistrationProps.
Import Binding Patterns Store Handlers Shapes Startup Server Samples.
Import Invariants BindingFacts.
Import PatternFacts ValidationFacts RegistrationFacts.

Lemma validate_message (p : Req.payload) (m : message) :
  validate p = Some m -> validation_message m.
Proof.
  unfold validate, validation_message.
  destruct (missing_required p); [intro H; inversion H; auto |].
  destruct (negb (email_ok p)); [intro H; inversion H; auto |].
  destruct (negb (phone_ok _)); [intro H; inversion H; auto |].
  destruct (nid_bad p); [intro H; inversion H; auto | discriminate].
Qed.

(** The store and the row a successful donor insert leaves, in full. *)
Lemma insert_donor_row (now : timestamp) (fault : bool)
    (ps : donor_params) (s s1 : db) (i : Z) :
  insert_donor now fault ps s = Some (s1, i) ->
  fault = false /\ i = next_id s
  /\ exists r,
       s1 = {| donors := donors s ++ [r]; donors_seq := i;
               admins := admins s; blood_inventory := blood_inventory s |}
       /\ Donor.id r = i
       /\ option_map bound_text (p_firstName ps)
          = Some (Donor.firstName r)
       /\ option_map bound_text (p_lastName ps) = Some (Donor.lastName r)
       /\ option_map bound_text (p_email ps) = Some (Donor.email r)
       /\ option_map bound_text (p_phone ps) = Some (Donor.phone r)
       /\ option_map bound_text (p_dob ps) = Some (Donor.dob r)
       /\ option_map bound_text (p_bloodType ps)
          = Some (Donor.bloodType r)
       /\ option_map bound_text (p_gender ps) = Some (Donor.gender r)
       /\ option_map bound_text (p_address ps) = Some (Donor.address r)
       /\ option_map bound_text (p_city ps) = Some (Donor.city r)
       /\ option_map bound_text (p_zipCode ps) = Some (Donor.zipCode r)
       /\ Donor.nidNumber r = option_map bound_text (p_nidNumber ps)
       /\ Donor.nidVerified r = p_nidVerified ps
       /\ Donor.nidData r = option_map bound_text (p_nidData ps)
       /\ Donor.registrationDate r = now
       /\ Donor.status r = str "Active"
       /\ Donor.registeredBy r = bound_text (p_registeredBy ps).
Proof.
  unfold insert_donor. destruct fault; [discriminate |].
  destruct (p_firstName ps); [| discriminate].
  destruct (p_lastName ps); [| discriminate].
  destruct (p_email ps); [| discriminate].
  destruct (p_phone ps); [| discriminate].
  destruct (p_dob ps); [| discriminate].
  destruct (p_bloodType ps); [| discriminate].
  destruct (p_gender ps); [| discriminate].
  destruct (p_address ps); [| discriminate].
  destruct (p_city ps); [| discriminate].
  destruct (p_zipCode ps); [| discriminate].
  intro H. inversion H; subst; clear H.
  split; [reflexivity | split; [reflexivity |]].
  eexists. split; [reflexivity |]. simpl. repeat split.
Qed.

(** The three ways a registration ends. *)
Lemma post_donors_cases (e : env) (p : Req.payload) (s : db) :
  (exists m, validate p = Some m
             /\ post_donors e p s = (Json 400 (Failure m), s))
  \/ (validate p = None
      /\ insert_donor (t_insert e) (insert_fault e) (donor_params_of p) s
         = None
      /\ post_donors e p s = (Json 500 (Failure MsgStoreError), s))
  \/ (validate p = None
      /\ exists s1 i,
           insert_donor (t_insert e) (insert_fault e) (donor_params_of p) s
           = Some (s1, i)
           /\ post_donors e p s
              = (Json 200 (Registered MsgRegistered i
                   (if truthy (Req.nidNumber p)
                    then NidPending else NidNone)),
                 after_update e p s1)).
Proof.
  rewrite post_donors_validate.
  destruct (validate p) as [m |] eqn:Hv; [left; eauto |].
  right. unfold persist, after_update, update_inventory.
  destruct (insert_donor _ _ _ s) as [[s1 i] |] eqn:Hi.
  - right. split; [reflexivity |]. exists s1, i.
    split; [reflexivity |]. destruct (update_fault e); reflexivity.
  - left. auto.
Qed.

(** X4.  A registration whose fields are each absent or a string ends in
    one of three ways: a 400 with one of the four validation messages, or
    a 500 with the store-error message, in both cases with the store
    untouched, or a 200 with the success message.  For such a payload the
    required-field guard keeps [phone.replace] from being called on a
    missing phone, so the handler answers and does not throw. *)
Theorem registration_outcomes (e : env) (p : Req.payload) (s : db) :
  (exists m, validation_message m
             /\ post_donors e p s = (Json 400 (Failure m), s))
  \/ post_donors e p s = (Json 500 (Failure MsgStoreError), s)
  \/ (exists i st,
        fst (post_donors e p s) = Json 200 (Registered MsgRegistered i st)).
Proof.
  destruct (post_donors_cases e p s)
    as [(m & Hv & E) | [(_ & _ & E) | (_ & s1 & i & _ & E)]].
  - left. exists m. split; [exact (validate_message p Hv) | exact E].
  - right. left. exact E.
  - right. right. rewrite E. simpl. eauto.
Qed.

(** X5.  A registration is answered with the success response exactly
    when it passes the four guards, supplies [dob], [address] and
    [zipCode] (an empty string will do), and the store does not fail on
    the insert. *)
Theorem registration_succeeds_iff (e : env) (p : Req.payload) (s : db) :
  (exists i st,
     fst (post_donors e p s) = Json 200 (Registered MsgRegistered i st))
  <-> validate p = None
      /\ Req.dob p <> None /\ Req.address p <> None
      /\ Req.zipCode p <> None
      /\ insert_fault e = false.
Proof.
  split.
  - intros (i & st & H).
    destruct (post_donors_cases e p s)
      as [(m & _ & E) | [(_ & _ & E) | (Hv & s1 & j & Hi & _)]];
      try (rewrite E in H; discriminate H).
    split; [exact Hv |].
    apply insert_donor_row in Hi
      as (Hf & _ & r & _ & _ & _ & _ & _ & _ & Hd & _ & _ & Ha & _ & Hz & _).
    simpl in Hd, Ha, Hz.
    destruct (Req.dob p); [| discriminate Hd].
    destruct (Req.address p); [| discriminate Ha].
    destruct (Req.zipCode p); [| discriminate Hz].
    repeat split; try discriminate. exact Hf.
  - intros (Hv & Hd & Ha & Hz & Hf).
    destruct (validate_none p Hv) as (Hm & _).
    destruct (@insert_donor_succeeds (t_insert e) p s Hm Hd Ha Hz)
      as (s1 & Hi).
    destruct (post_donors_cases e p s)
      as [(m & Hv' & _) | [(_ & Hi' & _) | (_ & s2 & j & _ & E)]].
    + congruence.
    + rewrite Hf in Hi'. congruence.
    + rewrite E. simpl. eauto.
Qed.

(** X6.  The inventory update is fire-and-forget.  When the donor insert
    succeeded and the update fails, the answer is still the success
    response, the donor row stays inserted and [blood_inventory] is as it
    was before the request: the registration is not counted. *)
Theorem failed_update_is_swallowed (e : env) (p : Req.payload)
    (s s1 : db) (i : Z) :
  validate p = None ->
  insert_donor (t_insert e) (insert_fault e) (donor_params_of p) s
  = Some (s1, i) ->
  update_fault e = true ->
  post_donors e p s
  = (Json 200 (Registered MsgRegistered i
       (if truthy (Req.nidNumber p) then NidPending else NidNone)), s1)
  /\ blood_inventory (snd (post_donors e p s)) = blood_inventory s
  /\ exists r, donors (snd (post_donors e p s)) = donors s ++ [r]
               /\ Donor.id r = i.
Proof.
  intros Hv Hi Hu.
  assert (E : post_donors e p s
              = (Json 200 (Registered MsgRegistered i
                   (if truthy (Req.nidNumber p)
                    then NidPending else NidNone)), s1)).
  { rewrite post_donors_validate, Hv. unfold persist, update_inventory.
    rewrite Hi, Hu. reflexivity. }
  rewrite E. simpl.
  apply insert_donor_row in Hi as (_ & _ & r & -> & Hid & _).
  simpl. eauto.
Qed.

Lemma failed_update_is_swallowed_witness :
  blood_inventory
    (snd (post_donors update_fails karim first_boot))
  = blood_inventory first_boot.
Proof.
  refine (proj1 (proj2
            (@failed_update_is_swallowed update_fails karim first_boot
               _ 1%Z _ _ _))).
  - vm_compute. reflexivity.
  - vm_compute. reflexivity.
  - reflexivity.
Defined.

(** X7.  The donor row of a successful registration of a payload whose
    fields are strings holds each text field as the binding stores it:
    the string sent, with an unpaired surrogate replaced by U+FFFD and
    nothing else changed.  The phone is stored exactly as sent, whitespace
    included, not in the stripped form the guard read; [registeredBy] is
    the sent value or ['user'] when it is absent or empty, [status] is
    ['Active'] and the registration date is the time of the insert. *)
Theorem stored_row_is_payload (e : env) (p : Req.payload) (s : db)
    (i : Z) (st : nid_status) :
  fst (post_donors e p s) = Json 200 (Registered MsgRegistered i st) ->
  exists r,
    donors (snd (post_donors e p s)) = donors s ++ [r]
    /\ option_map bound_text (Req.firstName p) = Some (Donor.firstName r)
    /\ option_map bound_text (Req.lastName p) = Some (Donor.lastName r)
    /\ option_map bound_text (Req.email p) = Some (Donor.email r)
    /\ Req.phone p = Some (Donor.phone r)
    /\ option_map bound_text (Req.dob p) = Some (Donor.dob r)
    /\ option_map bound_text (Req.bloodType p) = Some (Donor.bloodType r)
    /\ option_map bound_text (Req.gender p) = Some (Donor.gender r)
    /\ option_map bound_text (Req.address p) = Some (Donor.address r)
    /\ option_map bound_text (Req.city p) = Some (Donor.city r)
    /\ option_map bound_text (Req.zipCode p) = Some (Donor.zipCode r)
    /\ Donor.nidNumber r = Req.nidNumber p
    /\ Donor.registrationDate r = t_insert e
    /\ Donor.status r = str "Active"
    /\ (absent_or_empty (Req.registeredBy p) ->
        Donor.registeredBy r = str "user")
    /\ (forall c t, Req.registeredBy p = Some (c :: t) ->
        Donor.registeredBy r = bound_text (c :: t)).
Proof.
  intro H.
  destruct (post_donors_cases e p s)
    as [(m & _ & E) | [(_ & _ & E) | (Hv & s1 & j & Hi & E)]];
    try (rewrite E in H; discriminate H).
  rewrite E in H |- *. simpl in H. injection H as Hj _. subst j.
  apply insert_donor_row in Hi
    as (_ & _ & r & -> & Hid & F1 & F2 & F3 & F4 & F5 & F6 & F7 & F8 & F9
        & F10 & Hn & _ & _ & Hdate & Hst & Hby).
  exists r. simpl in F1, F2, F3, F4, F5, F6, F7, F8, F9, F10, Hn, Hby.
  assert (Hd : donors (after_update e p
                 {| donors := donors s ++ [r]; donors_seq := i;
                    admins := admins s;
                    blood_inventory := blood_inventory s |})
               = donors s ++ [r]).
  { unfold after_update. destruct (update_fault e); reflexivity. }
  destruct (validate_none p Hv) as (_ & _ & Hph & Hnid).
  assert (Fph : Req.phone p = Some (Donor.phone r)).
  { destruct (Req.phone p) as [ph |]; [| discriminate F4].
    simpl in F4, Hph. rewrite (accepted_phone_plain ph Hph) in F4.
    exact F4. }
  assert (Fn : Donor.nidNumber r = Req.nidNumber p).
  { rewrite Hn. apply nid_guard_plain, Hnid. }
  cbn [snd]. rewrite Hd. repeat split; auto.
  - intro Ha. apply truthy_false in Ha. rewrite Ha in Hby. exact Hby.
  - intros c t Hr. rewrite Hr in Hby. exact Hby.
Qed.

Lemma stored_row_is_payload_witness :
  exists r,
    donors (snd (post_donors calm karim first_boot))
    = donors first_boot ++ [r]
    /\ Req.phone karim = Some (Donor.phone r)
    /\ Donor.registeredBy r = str "user".
Proof.
  destruct (@stored_row_is_payload calm karim first_boot 1%Z NidNone)
    as (r & Hd & _ & _ & _ & Hph & _ & _ & _ & _ & _ & _ & _ & _ & _
        & Hby & _).
  - vm_compute. reflexivity.
  - exists r. repeat split.
    + exact Hd.
    + exact Hph.
    + apply Hby. left. reflexivity.
Defined.



Lemma bump_counted_once (now : timestamp) (t : jsstr) (r : Inventory.row) :
  counted_once r (bump now t r).
Proof.
  unfold counted_once, bump.
  destruct (jsstr_eqb (Inventory.bloodType r) t); simpl; split;
    try reflexivity; lia.
Qed.

Lemma map_bump_counted_once (now : timestamp) (t : jsstr)
    (l : list Inventory.row) :
  Forall2 counted_once l (map (bump now t) l).
Proof.
  induction l as [| x l IH]; simpl; constructor;
    [apply bump_counted_once | exact IH].
Qed.

(** X10.  Whatever the request and the store, a registration appends at
    most one donor row and changes no existing one, leaves [admins] as it
    is, adds or removes no inventory row, and raises each unit count by 0
    or 1: nothing is ever decremented or deleted. *)
Theorem registration_frame (e : env) (p : Req.payload) (s : db) :
  (exists added,
     donors (snd (post_donors e p s)) = donors s ++ added
     /\ (List.length added <= 1)%nat)
  /\ admins (snd (post_donors e p s)) = admins s
  /\ Forall2 counted_once
       (blood_inventory s) (blood_inventory (snd (post_donors e p s)))
  /\ (donors_seq s <= donors_seq (snd (post_donors e p s)))%Z.
Proof.
  assert (Hrefl : forall l, Forall2 counted_once l l).
  { induction l; constructor; auto. unfold counted_once. split; [| lia].
    reflexivity. }
  assert (Hsame : (exists added,
                     donors s = donors s ++ added
                     /\ (List.length added <= 1)%nat)
                  /\ admins s = admins s
                  /\ Forall2 counted_once
                       (blood_inventory s) (blood_inventory s)
                  /\ (donors_seq s <= donors_seq s)%Z).
  { repeat split; auto; try lia. exists []. rewrite app_nil_r. auto. }
  destruct (post_donors_cases e p s)
    as [(m & _ & E) | [(_ & _ & E) | (_ & s1 & i & Hi & E)]];
    rewrite E; simpl; try exact Hsame.
  apply insert_donor_row in Hi as (_ & Hq & r & -> & _).
  assert (Hle : (donors_seq s <= i)%Z).
  { subst i. unfold next_id. lia. }
  unfold after_update. destruct (update_fault e); simpl.
  - repeat split; auto. exists [r]. auto.
  - repeat split; auto; [exists [r]; auto |].
    apply map_bump_counted_once.
Qed.

End RegistrationProps.

(* ================================================================== *)
(** * Invariants of a run *)
(* ================================================================== *)

Module RunProps.
Import Binding Patterns Store Handlers Shapes Startup Server Samples.
Import Invariants BindingFacts.
Import PatternFacts ValidationFacts RegistrationFacts ServerFacts.
Import StartupProps RegistrationProps.

Lemma after_update_fields (e : env) (p : Req.payload) (s1 : db) :
  donors (after_update e p s1) = donors s1
  /\ donors_seq (after_update e p s1) = donors_seq s1
  /\ admins (after_update e p s1) = admins s1
  /\ inventory_types (after_update e p s1) = inventory_types s1.
Proof.
  unfold after_update, inventory_types.
  destruct (update_fault e); simpl; repeat split; auto.
  apply map_bump_types.
Qed.

Lemma bound_nonempty (v : option jsstr) (x : jsstr) :
  truthy v = true -> option_map bound_text v = Some x -> x <> [].
Proof.
  intros Ht H. destruct v as [[| c t] |]; try discriminate Ht.
  cbn [option_map] in H. injection H as <-.
  apply (@bound_text_nonempty (c :: t)). discriminate.
Qed.

(** The row a validated payload leaves is a validated row. *)
Lemma payload_row_validated (p : Req.payload) (r : Donor.row) :
  validate p = None ->
  option_map bound_text (Req.firstName p) = Some (Donor.firstName r) ->
  option_map bound_text (Req.lastName p) = Some (Donor.lastName r) ->
  option_map bound_text (Req.email p) = Some (Donor.email r) ->
  option_map bound_text (Req.phone p) = Some (Donor.phone r) ->
  option_map bound_text (Req.bloodType p) = Some (Donor.bloodType r) ->
  option_map bound_text (Req.gender p) = Some (Donor.gender r) ->
  option_map bound_text (Req.city p) = Some (Donor.city r) ->
  Donor.nidNumber r = option_map bound_text (Req.nidNumber p) ->
  Donor.status r = str "Active" ->
  Donor.registeredBy r = bound_text (p_registeredBy (donor_params_of p)) ->
  validated r.
Proof.
  intros Hv F1 F2 F3 F4 F5 F6 F7 Fn Fs Fb.
  destruct (validate_none p Hv) as (Hm & He & Hp & Hn).
  apply missing_required_false in Hm as (T1 & T2 & T3 & T4 & T5 & T6 & T7).
  unfold validated. repeat split.
  - exact (@bound_nonempty _ _ T1 F1).
  - exact (@bound_nonempty _ _ T2 F2).
  - exact (@bound_nonempty _ _ T5 F5).
  - exact (@bound_nonempty _ _ T6 F6).
  - exact (@bound_nonempty _ _ T7 F7).
  - unfold email_ok in He.
    destruct (Req.email p) as [em |]; [| discriminate F3].
    cbn [option_map] in F3. injection F3 as <-. unfold ToString in He.
    apply bound_email_shape, emailRegex_shape. exact He.
  - destruct (Req.phone p) as [ph |]; [| discriminate F4].
    cbn [option_map] in F4. injection F4 as <-. unfold ToString in Hp.
    rewrite (accepted_phone_plain ph Hp). unfold phone_ok in Hp.
    apply (phoneRegex_shape (strip_spaces_no_space _)). exact Hp.
  - rewrite Fn. destruct (nid_guard_plain p Hn) as [-> Hd].
    unfold nid_stored.
    destruct (Req.nidNumber p) as [[| c t] |]; auto.
    right. right. exists (c :: t). split; [reflexivity |].
    apply Hd. reflexivity.
  - exact Fs.
  - rewrite Fb. apply bound_text_nonempty. simpl.
    destruct (Req.registeredBy p) as [[| c t] |]; simpl; discriminate.
Qed.

(** X11.  In every store reached through start-ups, listings and
    registrations whose fields are absent or strings, every donor row
    went through the guards: its first name, last name, blood type,
    gender and city are non-empty, its email is of the shape
    [local@domain.tld], its phone with the whitespace removed is an
    accepted number, its national ID is [NULL], empty or seventeen
    digits, its status is ['Active'] and its registrar tag is
    non-empty. *)
Theorem stored_donors_are_validated (s : db) :
  reachable s -> Forall validated (donors s).
Proof.
  induction 1 as [| ev s Hs IH].
  - constructor.
  - destruct ev as [now | fault | e p]; simpl.
    + rewrite startup_donors. exact IH.
    + exact IH.
    + destruct (post_donors_cases e p s)
        as [(m & _ & E) | [(_ & _ & E) | (Hv & s1 & i & Hi & E)]];
        rewrite E; simpl; try exact IH.
      destruct (after_update_fields e p s1) as (-> & _).
      apply insert_donor_row in Hi
        as (_ & _ & r & -> & _ & F1 & F2 & F3 & F4 & _ & F6 & F7 & _ & F9
            & _ & Fn & _ & _ & _ & Fs & Fb).
      simpl. apply Forall_app. split; [exact IH |].
      constructor; [| constructor].
      apply (payload_row_validated p r Hv); assumption.
Qed.

Lemma stored_donors_are_validated_witness :
  Forall validated (donors sample_run).
Proof.
  apply stored_donors_are_validated.
  unfold sample_run, one_donor. apply reach_step. apply reach_step.
  exact (reach_step (EvStartup 1699990000%Z) reach_new).
Defined.

Lemma sorted_snoc (A : Type) (R : A -> A -> Prop) (l : list A) (a : A) :
  StronglySorted R l -> Forall (fun x => R x a) l ->
  StronglySorted R (l ++ [a]).
Proof.
  induction 1 as [| x l Hl IH Hx]; simpl; intro Ha.
  - repeat constructor.
  - inversion Ha; subst. constructor; [apply IH; assumption |].
    apply Forall_app. split; [exact Hx | constructor; auto].
Qed.

(** X12.  In every store the server reaches the donor ids are positive,
    strictly increasing in table order, hence pairwise distinct, and none
    exceeds the [AUTOINCREMENT] mark: no [donorId] is ever handed out
    twice. *)
Theorem donor_ids_increase (s : db) :
  reachable s ->
  StronglySorted (fun a b => (Donor.id a < Donor.id b)%Z) (donors s)
  /\ Forall (fun r => (0 < Donor.id r <= donors_seq s)%Z) (donors s)
  /\ NoDup (map Donor.id (donors s)).
Proof.
  intro Hs.
  assert (H : StronglySorted (fun a b => (Donor.id a < Donor.id b)%Z)
                (donors s)
              /\ Forall (fun r => (0 < Donor.id r <= donors_seq s)%Z)
                   (donors s)
              /\ (0 <= donors_seq s)%Z).
  { induction Hs as [| ev s Hs IH].
    - simpl. repeat split; try constructor. lia.
    - destruct ev as [now | fault | e p]; simpl.
      + destruct (startup_only_adds_fields s now) as (-> & ->). exact IH.
      + exact IH.
      + destruct (post_donors_cases e p s)
          as [(m & _ & E) | [(_ & _ & E) | (Hv & s1 & i & Hi & E)]];
          rewrite E; simpl; try exact IH.
        destruct (after_update_fields e p s1) as (-> & -> & _).
        apply insert_donor_row in Hi as (_ & Hi & r & -> & Hid & _).
        simpl. destruct IH as (Hsort & Hall & Hq).
        assert (Hlt : Forall (fun x => (Donor.id x < i)%Z) (donors s)).
        { eapply Forall_impl; [| exact Hall]. simpl. intros x Hx.
          subst i. unfold next_id. lia. }
        assert (Hi' : (donors_seq s < i)%Z).
        { subst i. unfold next_id. lia. }
        repeat split.
        * apply sorted_snoc; [exact Hsort |]. rewrite Hid. exact Hlt.
        * apply Forall_app. split.
          -- eapply Forall_impl; [| exact Hall]. simpl. intros x Hx. lia.
          -- constructor; [lia | constructor].
        * lia. }
  destruct H as (Hsort & Hall & _). repeat split; auto.
  clear Hall Hs. induction Hsort as [| x l Hl IH Hx]; simpl; constructor.
  - intro Hin. apply in_map_iff in Hin as (y & Hy & Hin).
    rewrite Forall_forall in Hx. specialize (Hx y Hin). lia.
  - exact IH.
Qed.

Lemma donor_ids_increase_witness :
  NoDup (map Donor.id (donors sample_run)).
Proof.
  refine (proj2 (proj2 (@donor_ids_increase sample_run _))).
  unfold sample_run, one_donor. apply reach_step. apply reach_step.
  exact (reach_step (EvStartup 1699990000%Z) reach_new).
Defined.

Lemma bound_blood_type (p : Req.payload) (r : Donor.row) :
  option_map bound_text (Req.bloodType p) = Some (Donor.bloodType r) ->
  bound_text (ToString (Req.bloodType p)) = Donor.bloodType r.
Proof.
  destruct (Req.bloodType p) as [bt |]; [| discriminate].
  cbn [option_map ToString]. intro H. injection H as H. exact H.
Qed.

Lemma donors_of_type_snoc (t : jsstr) (l : list Donor.row)
    (r : Donor.row) :
  donors_of_type t (l ++ [r])
  = (donors_of_type t l
     + if jsstr_eqb (Donor.bloodType r) t then 1 else 0)%Z.
Proof.
  unfold donors_of_type. rewrite filter_app, length_app. simpl.
  destruct (jsstr_eqb (Donor.bloodType r) t); simpl; lia.
Qed.

Lemma donors_of_type_nonneg (t : jsstr) (l : list Donor.row) :
  (0 <= donors_of_type t l)%Z.
Proof. unfold donors_of_type. lia. Qed.

Lemma jsstr_eqb_sym (a b : jsstr) : jsstr_eqb a b = jsstr_eqb b a.
Proof.
  destruct (jsstr_eqb a b) eqn:E; symmetry.
  - apply jsstr_eqb_eq in E. apply jsstr_eqb_eq. auto.
  - apply jsstr_eqb_neq in E. apply jsstr_eqb_neq. auto.
Qed.

(** The inventory rows against the donors after a counted, or an
    uncounted, registration of type [t]. *)
Lemma units_after_registration (R : Z -> Z -> Prop) (now : timestamp)
    (r : Donor.row) (ds : list Donor.row) (inv : list Inventory.row) :
  (forall u c, R u c -> R (u + 1)%Z (c + 1)%Z) ->
  Forall (fun x => R (Inventory.units x)
                     (donors_of_type (Inventory.bloodType x) ds)) inv ->
  Forall (fun x => R (Inventory.units x)
                     (donors_of_type (Inventory.bloodType x) (ds ++ [r])))
    (map (bump now (Donor.bloodType r)) inv).
Proof.
  intros HR H. induction H as [| x l Hx _ IH]; simpl; constructor;
    [| exact IH].
  unfold bump.
  destruct (jsstr_eqb (Inventory.bloodType x) (Donor.bloodType r)) eqn:E;
    simpl; rewrite donors_of_type_snoc, jsstr_eqb_sym, E.
  - apply HR, Hx.
  - rewrite Z.add_0_r. exact Hx.
Qed.

(** X13.  In every store the server reaches, the unit count of an
    inventory row is at least 0 and at most the number of donor rows of
    that blood type: the counter never runs ahead of the registrations. *)
Theorem units_never_exceed_donors (s : db) :
  reachable s ->
  Forall (fun x => (0 <= Inventory.units x
                    <= donors_of_type (Inventory.bloodType x) (donors s))%Z)
    (blood_inventory s).
Proof.
  induction 1 as [| ev s Hs IH].
  - constructor.
  - destruct ev as [now | fault | e p]; simpl.
    + destruct (startup_only_adds_fields s now) as (-> & _).
      destruct (startup_inventory s now) as (added & -> & Hadd).
      apply Forall_app. split; [exact IH |].
      eapply Forall_impl; [| exact Hadd]. simpl. intros x ->.
      split; [lia | apply donors_of_type_nonneg].
    + exact IH.
    + destruct (post_donors_cases e p s)
        as [(m & _ & E) | [(_ & _ & E) | (Hv & s1 & i & Hi & E)]];
        rewrite E; simpl; try exact IH.
      apply insert_donor_row in Hi
        as (_ & _ & r & -> & _ & _ & _ & _ & _ & _ & F6 & _).
      simpl in F6. apply bound_blood_type in F6.
      unfold after_update. rewrite F6.
      destruct (update_fault e); simpl.
      * eapply Forall_impl; [| exact IH]. simpl. intros x Hx.
        rewrite donors_of_type_snoc.
        destruct (jsstr_eqb (Donor.bloodType r) (Inventory.bloodType x));
          lia.
      * apply (units_after_registration
                 (fun u c => (0 <= u <= c)%Z)); [intros; lia | exact IH].
Qed.

Lemma units_never_exceed_donors_witness :
  Forall (fun x => (0 <= Inventory.units x
                    <= donors_of_type (Inventory.bloodType x)
                         (donors sample_run))%Z)
    (blood_inventory sample_run).
Proof.
  apply units_never_exceed_donors.
  unfold sample_run, one_donor. apply reach_step. apply reach_step.
  exact (reach_step (EvStartup 1699990000%Z) reach_new).
Defined.

(** X14.  When the server seeds a new database before it serves and every
    inventory update runs, the counters are exact: each of the eight
    inventory rows holds the number of donor rows of its blood type. *)
Theorem units_count_donors (s : db) :
  in_sync s ->
  inventory_types s = bloodTypes
  /\ Forall (fun x => Inventory.units x
                      = donors_of_type (Inventory.bloodType x) (donors s))
       (blood_inventory s).
Proof.
  intro Hs.
  assert (H : seeded s
              /\ Forall (fun x => Inventory.units x
                                  = donors_of_type (Inventory.bloodType x)
                                      (donors s))
                   (blood_inventory s)).
  { induction Hs as [t | ev s Hs IH Hev].
    - split; [apply startup_unseeded; split; reflexivity |].
      simpl. repeat constructor.
    - destruct IH as (Hseed & IH).
      destruct ev as [now | fault | e p]; simpl.
      + rewrite (startup_seeded now Hseed). auto.
      + auto.
      + simpl in Hev.
        destruct (post_donors_cases e p s)
          as [(m & _ & E) | [(_ & _ & E) | (Hv & s1 & i & Hi & E)]];
          rewrite E; simpl; auto.
        destruct (after_update_fields e p s1) as (_ & _ & Ha & Ht).
        apply insert_donor_row in Hi
          as (_ & _ & r & -> & _ & _ & _ & _ & _ & _ & F6 & _).
        simpl in F6. apply bound_blood_type in F6. split.
        * destruct Hseed as [Hadm Htypes]. split.
          -- rewrite Ha. exact Hadm.
          -- unfold inventory_types in Ht. rewrite Ht. exact Htypes.
        * unfold after_update. rewrite Hev, F6. simpl.
          apply (units_after_registration (fun u c => u = c));
            [intros; lia | exact IH]. }
  destruct H as ([_ Ht] & H). split; [exact Ht | exact H].
Qed.

Lemma units_count_donors_witness :
  inventory_types sample_run = bloodTypes.
Proof.
  refine (proj1 (@units_count_donors sample_run _)).
  unfold sample_run, one_donor, first_boot.
  apply sync_step; [apply sync_step; [apply sync_boot |] |]; reflexivity.
Defined.

(** X15.  No event breaks a [UNIQUE] column: if the blood types of
    [blood_inventory] and the user names of [admins] are pairwise distinct
    before a start-up, a listing or a registration, they are so after. *)
Theorem unique_columns_kept (ev : event) (s : db) :
  NoDup (inventory_types s) ->
  NoDup (admin_names s) ->
  NoDup (inventory_types (step ev s))
  /\ NoDup (admin_names (step ev s)).
Proof.
  intros Ht Ha. destruct ev as [now | fault | e p]; cbn [step].
  - apply startup_unique; assumption.
  - auto.
  - destruct (post_donors_cases e p s)
      as [(m & _ & E) | [(_ & _ & E) | (Hv & s1 & i & Hi & E)]];
      rewrite E; simpl; auto.
    destruct (after_update_fields e p s1) as (_ & _ & Hadm & Htyp).
    apply insert_donor_row in Hi as (_ & _ & r & -> & _).
    unfold admin_names. rewrite Hadm, Htyp. auto.
Qed.

Lemma unique_columns_kept_witness :
  NoDup (inventory_types (step (EvStartup 1699990000%Z) empty_db))
  /\ NoDup (admin_names (step (EvStartup 1699990000%Z) empty_db)).
Proof.
  apply (@unique_columns_kept (EvStartup 1699990000%Z) empty_db);
    constructor.
Defined.

End RunProps.

(* ================================================================== *)
(** * More on the listing *)
(* ================================================================== *)

Module ListingProps.
Import Store Handlers Shapes Startup Server Samples Invariants.
Import RegistrationFacts ServerFacts RegistrationProps RunProps.

Section Views.
Variable json : Type.
Variable JSON_parse : jsstr -> option json.
Variable toLocaleDateString : timestamp -> jsstr.

(** A row without a stored payload is shown without calling
    [JSON.parse]. *)
Lemma map_view_unverified (rows : list Donor.row) :
  Forall unverified rows ->
  exists vs,
    map_view JSON_parse toLocaleDateString rows = Some vs
    /\ map (@spread json) vs = rows
    /\ Forall (fun v => Handlers.nidData v = None
                        /\ Handlers.registrationDate v
                           = toLocaleDateString
                               (Donor.registrationDate (spread v))) vs.
Proof.
  induction 1 as [| d t [_ Hd] _ (vs & Hvs & Hsp & Hall)]; simpl.
  - exists []. auto.
  - unfold view. rewrite Hd, Hvs. eexists. split; [reflexivity |].
    simpl. rewrite Hsp. repeat split; auto.
Qed.

End Views.

Lemma order_by_newest_last (l : list Donor.row) (r : Donor.row) :
  Forall (fun d => (Donor.registrationDate d
                    < Donor.registrationDate r)%Z) l ->
  order_by_registrationDate_desc (l ++ [r])
  = r :: order_by_registrationDate_desc l.
Proof.
  induction 1 as [| x l Hx _ IH]; simpl; [reflexivity |].
  fold (order_by_registrationDate_desc (l ++ [r])). rewrite IH. simpl.
  destruct (Donor.registrationDate r <=? Donor.registrationDate x)%Z
    eqn:E; [| reflexivity].
  apply Z.leb_le in E. lia.
Qed.

(** X16.  On every store the server reaches, whatever [JSON.parse] would
    do, a listing that reads the store does not throw: it answers 200 with
    one entry per donor row and [count] the number of rows, every entry
    with [nidData] null and its date the formatted registration date. *)
Theorem listing_of_reachable (json : Type)
    (JSON_parse : jsstr -> option json)
    (toLocaleDateString : timestamp -> jsstr) (s : db) :
  reachable s ->
  exists views,
    get_donors JSON_parse toLocaleDateString false s
    = ListJson 200 views (List.length (donors s))
    /\ List.length views = List.length (donors s)
    /\ Permutation (map (@spread json) views) (donors s)
    /\ Forall (fun v => Handlers.nidData v = None
                        /\ Handlers.registrationDate v
                           = toLocaleDateString
                               (Donor.registrationDate (spread v))) views.
Proof.
  intro Hs. apply reachable_unverified in Hs.
  assert (Hp : Permutation (order_by_registrationDate_desc (donors s))
                 (donors s)) by apply ListingFacts.order_by_perm.
  assert (Hu : Forall unverified (order_by_registrationDate_desc (donors s))).
  { eapply Permutation_Forall; [apply Permutation_sym, Hp | exact Hs]. }
  destruct (@map_view_unverified json JSON_parse toLocaleDateString _ Hu)
    as (vs & Hvs & Hsp & Hall).
  assert (Hlen : List.length vs = List.length (donors s)).
  { rewrite <- (length_map (@spread json)), Hsp.
    apply Permutation_length, Hp. }
  exists vs. unfold get_donors, select_donors. rewrite Hvs, Hsp, Hlen.
  auto.
Qed.

Lemma listing_of_reachable_witness :
  exists views,
    get_donors (fun _ : jsstr => @None unit) (fun _ : timestamp => [])
      false sample_run
    = ListJson 200 views (List.length (donors sample_run))
    /\ List.length views = List.length (donors sample_run).
Proof.
  destruct (@listing_of_reachable unit (fun _ : jsstr => None)
              (fun _ : timestamp => []) sample_run) as (vs & H1 & H2 & _).
  - unfold sample_run, one_donor. apply reach_step. apply reach_step.
    exact (reach_step (EvStartup 1699990000%Z) reach_new).
  - exists vs. split; [exact H1 | exact H2].
Defined.

(** X17.  Register, then list.  After a successful registration at a
    time later than every stored registration date, the listing of the
    new store has one entry more, and its first entry is the new donor:
    its id is the [donorId] that the registration returned, its first
    name is the one sent, as the binding stores it, and its date is the
    formatted time of the insert. *)
Theorem new_donor_heads_listing (json : Type)
    (JSON_parse : jsstr -> option json)
    (toLocaleDateString : timestamp -> jsstr)
    (e : env) (p : Req.payload) (s : db) (i : Z) (st : nid_status) :
  reachable s ->
  fst (post_donors e p s) = Json 200 (Registered MsgRegistered i st) ->
  Forall (fun d => (Donor.registrationDate d < t_insert e)%Z) (donors s) ->
  exists v rest,
    get_donors JSON_parse toLocaleDateString false (snd (post_donors e p s))
    = ListJson 200 (v :: rest) (S (List.length (donors s)))
    /\ Donor.id (spread v) = i
    /\ option_map Binding.bound_text (Req.firstName p)
       = Some (Donor.firstName (spread v))
    /\ Handlers.registrationDate v = toLocaleDateString (t_insert e)
    /\ Permutation (map (@spread json) rest) (donors s).
Proof.
  intros Hs H Hlate.
  pose proof (reachable_unverified Hs) as Hu.
  destruct (post_donors_cases e p s)
    as [(m & _ & E) | [(_ & _ & E) | (Hv & s1 & j & Hi & E)]];
    try (rewrite E in H; discriminate H).
  rewrite E in H |- *. simpl in H. inversion H; subst j; clear H.
  simpl snd.
  apply insert_donor_row in Hi
    as (_ & _ & r & -> & Hid & F1 & _ & _ & _ & _ & _ & _ & _ & _ & _ & _
        & Fv & Fd & Fdate & _).
  simpl in F1, Fd.
  assert (Fv0 : Donor.nidVerified r = 0%Z).
  { rewrite Fv. simpl. destruct (truthy (Req.nidNumber p)); reflexivity. }
  unfold get_donors, select_donors.
  destruct (after_update_fields e p
              {| donors := donors s ++ [r]; donors_seq := i;
                 admins := admins s;
                 blood_inventory := blood_inventory s |}) as (-> & _).
  cbn [donors].
  rewrite order_by_newest_last by (rewrite Fdate; exact Hlate).
  assert (Hp : Permutation (order_by_registrationDate_desc (donors s))
                 (donors s)) by apply ListingFacts.order_by_perm.
  assert (Hu' : Forall unverified
                  (r :: order_by_registrationDate_desc (donors s))).
  { constructor; [split; assumption |].
    eapply Permutation_Forall; [apply Permutation_sym, Hp | exact Hu]. }
  destruct (@map_view_unverified json JSON_parse toLocaleDateString _ Hu')
    as (vs & Hvs & Hsp & Hall).
  rewrite Hvs. destruct vs as [| v rest]; [discriminate Hsp |].
  simpl in Hsp. inversion Hsp as [[Hv0 Hrest]].
  inversion Hall as [| v' l' [_ Hdate'] _]; subst.
  exists v, rest. repeat split.
  - f_equal. simpl. f_equal.
    rewrite <- (length_map (@spread json)), Hrest.
    apply Permutation_length, Hp.
  - exact F1.
  - rewrite Hdate', Fdate. reflexivity.
  - rewrite Hrest. exact Hp.
Qed.

Lemma new_donor_heads_listing_witness :
  exists v rest,
    get_donors (fun _ : jsstr => @None unit) (fun _ : timestamp => [])
      false (snd (post_donors later karim_unlisted one_donor))
    = ListJson 200 (v :: rest) (S (List.length (donors one_donor)))
    /\ Donor.id (spread v) = 2%Z.
Proof.
  destruct (@new_donor_heads_listing unit (fun _ : jsstr => None)
              (fun _ : timestamp => []) later karim_unlisted
              one_donor 2%Z NidNone)
    as (v & rest & H1 & H2 & _).
  - unfold one_donor. apply reach_step.
    exact (reach_step (EvStartup 1699990000%Z) reach_new).
  - vm_compute. reflexivity.
  - apply Forall_forall. intros d Hd. vm_compute in Hd.
    destruct Hd as [<- | []]. reflexivity.
  - exists v, rest. split; [exact H1 | exact H2].
Defined.

End ListingProps.

(* ================================================================== *)
(** * More on the accepted strings *)
(* ================================================================== *)

Module PatternProps.
Import Regex CharClass Patterns Shapes Handlers Samples.
Import RegexFacts PatternFacts BindingFacts.

(** X18.  A phone the guard accepts is, once its whitespace is removed,
    an optional [+] followed by 12 or 13 digits of which the first two are
    [88]: 12 to 14 code units in all, and never beginning with [0], so a
    national-format number such as [017XXXXXXXX] is never accepted. *)
Theorem accepted_phone_facts (ph : jsstr) :
  phone_ok ph = true ->
  exists body rest,
    (strip_spaces ph = body \/ strip_spaces ph = PLUS :: body)
    /\ body = str "88" ++ rest
    /\ all digit body
    /\ (12 <= List.length body <= 13)%nat
    /\ (12 <= List.length (strip_spaces ph) <= 14)%nat
    /\ hd_error (strip_spaces ph) <> Some D0.
Proof.
  intro H. unfold phone_ok in H.
  apply (phoneRegex_shape (strip_spaces_no_space ph)) in H.
  apply phone_shape_body in H as (body & rest & Hs & Hb & Hl & Hd).
  exists body, rest.
  assert (Hlen : List.length body = (2 + List.length rest)%nat).
  { rewrite Hb, length_app. reflexivity. }
  assert (Hall : all digit body).
  { rewrite Hb. unfold all. apply Forall_app. split; [| exact Hd].
    repeat constructor. }
  split; [exact Hs | split; [exact Hb | split; [exact Hall |]]].
  split; [lia |].
  destruct Hs as [-> | ->].
  - split; [lia |]. rewrite Hb. simpl. discriminate.
  - split; [simpl List.length; lia | simpl; discriminate].
Qed.

Lemma accepted_phone_facts_witness :
  exists body rest,
    (strip_spaces (str "+880 1711 112222") = body
     \/ strip_spaces (str "+880 1711 112222") = PLUS :: body)
    /\ body = str "88" ++ rest
    /\ all digit body
    /\ (12 <= List.length body <= 13)%nat
    /\ (12 <= List.length (strip_spaces (str "+880 1711 112222")) <= 14)%nat
    /\ hd_error (strip_spaces (str "+880 1711 112222")) <> Some D0.
Proof.
  apply (@accepted_phone_facts (str "+880 1711 112222")).
  vm_compute. reflexivity.
Defined.

Lemma count_no_at (s : jsstr) :
  all not_space_at s -> count_occ N.eq_dec s AT = 0%nat.
Proof.
  induction 1 as [| c t Hc _ IH]; simpl; [reflexivity |].
  destruct (N.eq_dec c AT) as [-> | _]; [| exact IH].
  vm_compute in Hc. discriminate Hc.
Qed.

Lemma not_space_at_no_space (s : jsstr) :
  all not_space_at s -> Forall (fun c => space c = false) s.
Proof.
  intro H. eapply Forall_impl; [| exact H]. simpl.
  unfold not_space_at. intros c Hc. apply negb_true_iff in Hc.
  apply orb_false_iff in Hc. tauto.
Qed.

(** X19.  An email the guard accepts holds exactly one [@], no
    whitespace, and at least five code units. *)
Theorem accepted_email_facts (em : jsstr) :
  test emailRegex em = true ->
  count_occ N.eq_dec em AT = 1%nat
  /\ Forall (fun c => space c = false) em
  /\ (5 <= List.length em)%nat.
Proof.
  intro H. apply emailRegex_shape in H
    as (l & d & t & -> & [Hl Hla] & [Hd Hda] & [Ht Hta]).
  repeat split.
  - rewrite count_occ_app. simpl.
    destruct (N.eq_dec AT AT) as [_ | Hn]; [| contradiction].
    rewrite count_occ_app. simpl.
    destruct (N.eq_dec DOT AT) as [Hx | _]; [discriminate Hx |].
    rewrite !count_no_at by assumption. reflexivity.
  - apply Forall_app. split; [apply not_space_at_no_space, Hla |].
    constructor; [reflexivity |].
    apply Forall_app. split; [apply not_space_at_no_space, Hda |].
    constructor; [reflexivity | apply not_space_at_no_space, Hta].
  - rewrite length_app. simpl. rewrite length_app. simpl.
    destruct l; [contradiction |]. destruct d; [contradiction |].
    destruct t; [contradiction |]. simpl. lia.
Qed.

Lemma accepted_email_facts_witness :
  count_occ N.eq_dec (str "k@example.com") AT = 1%nat.
Proof.
  refine (proj1 (@accepted_email_facts (str "k@example.com") _)).
  vm_compute. reflexivity.
Defined.

End PatternProps.
